(** * FlutterReflect: the JSON-RPC message model, the dispatch engine,
      the VM Service client and instance discovery

    A shallow embedding of

      - [src/jsonrpc/message.cpp]   (Error, Request, Response, Notification,
                                     validateJsonRpc),
      - [src/jsonrpc/handler.cpp]   (MessageHandler),
      - [src/mcp/server.cpp]        (the protocol handlers of mcp::Server),
      - [src/flutter/vm_service_client.cpp] (VMServiceClient),
      - [src/flutter/instance_discovery.cpp] (InstanceDiscovery),
      - [src/mcp/stdio_transport.cpp] and the tools of [src/tools],

    followed by the properties of the specification that concern them.

    Conventions.  A [nlohmann::json] value is a [json]; objects are finite
    maps from keys to values, so that two objects are equal exactly when
    [operator==] says so.  The text layer of the library ([json::parse],
    [dump]) is not part of the repository: a message is given by the outcome
    of [json::parse] on its text, a reply by the value that is dumped.
    Floating point numbers are left out of [json]; an integer is a [JInt]
    whatever its sign.  A C++ function that can throw returns an [outcome];
    only exceptions derived from [std::exception] occur, and the code only
    ever looks at their [what()].  A function during which the process can
    end ([std::terminate], a failed assertion) has a [fate]. *)

From stdpp Require Import gmap strings list fin_maps pretty sorting.
From Stdlib Require Import ZArith Lia.

Open Scope Z_scope.

(** ** Exceptions and fallible results *)

Inductive exn : Type :=
| runtime_error (msg : string)     (* std::runtime_error *)
| json_exception (msg : string)    (* nlohmann::json::exception *)
| future_error (msg : string).     (* std::future_error *)

Definition what (e : exn) : string :=
  match e with
  | runtime_error m | json_exception m | future_error m => m
  end.

Inductive outcome (A : Type) : Type :=
| Ok (a : A)
| Throw (e : exn).
Arguments Ok {A} a.
Arguments Throw {A} e.

#[export] Instance outcome_ret : MRet outcome := fun A a => Ok a.
#[export] Instance outcome_bind : MBind outcome := fun A B f m =>
  match m with
  | Ok a => f a
  | Throw e => Throw e
  end.

(** A call that does not come back.  The process ends when a [std::thread]
    that is still joinable is destroyed ([std::terminate]) and when an
    assertion of the JSON library fails; where the language leaves the
    behaviour undefined (that assertion compiled out, an [int] that
    overflows) nothing can be said of what follows.  No handler gets to see
    any of this. *)
Inductive fate (A : Type) : Type :=
| Returns (a : A)
| Lost.
Arguments Returns {A} a.
Arguments Lost {A}.

#[export] Instance fate_ret : MRet fate := fun A a => Returns a.
#[export] Instance fate_bind : MBind fate := fun A B f m =>
  match m with
  | Returns a => f a
  | Lost => Lost
  end.

(** Computations that thread a state [S] and may throw: the effects a
    member function has on its object survive the exception. *)
Definition io (S A : Type) : Type := S -> outcome A * S.

Definition io_ret {S A} (a : A) : io S A := fun s => (Ok a, s).
Definition io_bind {S A B} (m : io S A) (f : A -> io S B) : io S B :=
  fun s => match m s with
           | (Ok a, s') => f a s'
           | (Throw e, s') => (Throw e, s')
           end.
Definition io_throw {S A} (e : exn) : io S A := fun s => (Throw e, s).
Definition io_lift {S A} (o : outcome A) : io S A := fun s => (o, s).
Definition io_get {S} : io S S := fun s => (Ok s, s).
Definition io_modify {S} (f : S -> S) : io S unit := fun s => (Ok tt, f s).
Declare Scope io_scope.
Delimit Scope io_scope with io.
Notation "'let*' x := m 'in' k" := (io_bind m (fun x => k))
  (at level 10, x name, m at level 100, k at level 200, only parsing)
  : io_scope.

(** ** Fixed width integers *)

Definition to_int64 (n : Z) : Z := (n + 2 ^ 63) mod 2 ^ 64 - 2 ^ 63.
Definition to_int32 (n : Z) : Z := (n + 2 ^ 31) mod 2 ^ 32 - 2 ^ 31.
Definition is_int64 (n : Z) : Prop := - 2 ^ 63 <= n < 2 ^ 63.

(** ** The part of nlohmann::json the code uses *)

Module Json.

#[warnings="-register-all"]
Inductive json : Type :=
| JNull
| JBool (b : bool)
| JInt (n : Z)
| JString (s : string)
| JArray (items : list json)
| JObject (fields : gmap string json).

(** [nlohmann::json::object()] *)
Definition object : json := JObject ∅.

Definition type_name (j : json) : string :=
  match j with
  | JNull => "null"
  | JBool _ => "boolean"
  | JInt _ => "number"
  | JString _ => "string"
  | JArray _ => "array"
  | JObject _ => "object"
  end.

Definition is_null (j : json) : bool := match j with JNull => true | _ => false end.
Definition is_string (j : json) : bool := match j with JString _ => true | _ => false end.
Definition is_object (j : json) : bool := match j with JObject _ => true | _ => false end.
Definition is_array (j : json) : bool := match j with JArray _ => true | _ => false end.
Definition is_number_integer (j : json) : bool := match j with JInt _ => true | _ => false end.

(** [j.find(key)]: the member of an object, nothing on any other value.
    [if (j.contains(k)) ... j[k] ...] is a [match] on [find j k]. *)
Definition find (j : json) (key : string) : option json :=
  match j with
  | JObject fields => fields !! key
  | _ => None
  end.

Definition contains (j : json) (key : string) : bool :=
  match find j key with Some _ => true | None => false end.

(** [j == "text"] for a string literal. *)
Definition eq_str (j : json) (text : string) : bool :=
  match j with
  | JString s => bool_decide (s = text)
  | _ => false
  end.

(** [j.at(key)] *)
Definition at_ (j : json) (key : string) : outcome json :=
  match j with
  | JObject fields =>
      match fields !! key with
      | Some v => Ok v
      | None => Throw (json_exception
          ("[json.exception.out_of_range.403] key '" +:+ key +:+ "' not found"))
      end
  | _ => Throw (json_exception
          ("[json.exception.type_error.304] cannot use at() with " +:+ type_name j))
  end.

(** [j.get<std::string>()] *)
Definition get_string (j : json) : outcome string :=
  match j with
  | JString s => Ok s
  | _ => Throw (json_exception
          ("[json.exception.type_error.302] type must be string, but is " +:+ type_name j))
  end.

(** [j.get<int64_t>()] *)
Definition get_int64 (j : json) : outcome Z :=
  match j with
  | JInt n => Ok (to_int64 n)
  | _ => Throw (json_exception
          ("[json.exception.type_error.302] type must be number, but is " +:+ type_name j))
  end.

(** [j.get<int>()]: the conversion to a narrower arithmetic type also takes
    booleans. *)
Definition get_int (j : json) : outcome Z :=
  match j with
  | JInt n => Ok (to_int32 n)
  | JBool b => Ok (if b then 1 else 0)
  | _ => Throw (json_exception
          ("[json.exception.type_error.302] type must be number, but is " +:+ type_name j))
  end.

(** [j.value(key, default)] with a json default. *)
Definition value (j : json) (key : string) (default_value : json) : outcome json :=
  match j with
  | JObject fields => Ok (default default_value (fields !! key))
  | _ => Throw (json_exception
          ("[json.exception.type_error.306] cannot use value() with " +:+ type_name j))
  end.

(** [j.value(key, default)] with a string default: a member that is present
    is converted with [get<std::string>()]. *)
Definition value_string (j : json) (key : string) (default_value : string)
  : outcome string :=
  match j with
  | JObject fields =>
      match fields !! key with
      | Some v => get_string v
      | None => Ok default_value
      end
  | _ => Throw (json_exception
          ("[json.exception.type_error.306] cannot use value() with " +:+ type_name j))
  end.

(** [std::less<>] on the keys of an object, which is a [std::map]: the
    strings are compared byte by byte, a prefix coming first. *)
Definition key_le (a b : string * json) : Prop := String.leb a.1 b.1.

(** The values a range-for visits: the elements of an array, the members of
    an object in the order of their keys, nothing for null, the value itself
    otherwise. *)
Definition iterate (j : json) : list json :=
  match j with
  | JNull => []
  | JArray items => items
  | JObject fields => (merge_sort key_le (map_to_list fields)).*2
  | _ => [j]
  end.

(** [j.empty()] *)
Definition empty (j : json) : bool :=
  match j with
  | JNull => true
  | JArray items => bool_decide (items = [])
  | JObject fields => bool_decide (fields = ∅)
  | _ => false
  end.

End Json.
Import Json.

(** [haystack.find(needle) != std::string::npos] *)
Fixpoint has_substring (needle haystack : string) : bool :=
  String.prefix needle haystack ||
  match haystack with
  | EmptyString => false
  | String _ rest => has_substring needle rest
  end.

(** ** jsonrpc/message.h, jsonrpc/message.cpp *)

Inductive ErrorCode : Type :=
| ParseError
| InvalidRequest
| MethodNotFound
| InvalidParams
| InternalError
| ServerError.

Definition ErrorCode_value (c : ErrorCode) : Z :=
  match c with
  | ParseError => -32700
  | InvalidRequest => -32600
  | MethodNotFound => -32601
  | InvalidParams => -32602
  | InternalError => -32603
  | ServerError => -32000
  end.

(** [std::variant<std::string, int64_t, std::nullptr_t>] *)
Inductive RequestId : Type :=
| IdString (s : string)
| IdInt (n : Z)
| IdNull.

Definition wf_id (id : RequestId) : Prop :=
  match id with
  | IdInt n => is_int64 n
  | _ => True
  end.

Definition id_toJson (id : RequestId) : json :=
  match id with
  | IdString s => JString s
  | IdInt n => JInt n
  | IdNull => JNull
  end.

Module Error.

Record t : Type := mk {
  code : Z;
  message : string;
  data : option json
}.

Definition fromCode (c : ErrorCode) (msg : string) (d : option json) : t :=
  {| code := ErrorCode_value c;
     message :=
       if bool_decide (msg = "") then
         match c with
         | ParseError => "Parse error"
         | InvalidRequest => "Invalid request"
         | MethodNotFound => "Method not found"
         | InvalidParams => "Invalid params"
         | InternalError => "Internal error"
         | ServerError => "Server error"
         end
       else msg;
     data := d |}.

Definition toJson (e : t) : json :=
  let j : gmap string json :=
    <["message" := JString (message e)]> (<["code" := JInt (code e)]> ∅) in
  match data e with
  | Some d => JObject (<["data" := d]> j)
  | None => JObject j
  end.

Definition fromJson (j : json) : outcome t :=
  c ← at_ j "code" ≫= get_int;
  m ← at_ j "message" ≫= get_string;
  mret {| code := c; message := m; data := find j "data" |}.

End Error.

(** Throws when the value is not a JSON-RPC 2.0 envelope. *)
Definition validateJsonRpc (j : json) : outcome unit :=
  if negb (is_object j) then
    Throw (runtime_error "JSON-RPC message must be an object")
  else if negb (match find j "jsonrpc" with
                | Some v => eq_str v "2.0"
                | None => false
                end) then
    Throw (runtime_error "JSON-RPC version must be '2.0'")
  else
    match find j "method" with
    | None =>
        if negb (contains j "result") && negb (contains j "error") then
          Throw (runtime_error
                   "JSON-RPC message must have 'method' or 'result'/'error'")
        else Ok tt
    | Some m =>
        if negb (is_string m) then
          Throw (runtime_error "JSON-RPC 'method' must be a string")
        else
          match find j "params" with
          | Some p =>
              if negb (is_object p) && negb (is_array p) then
                Throw (runtime_error "JSON-RPC 'params' must be an object or array")
              else Ok tt
          | None => Ok tt
          end
    end.

Module Request.

Record t : Type := mk {
  jsonrpc : string;
  method : string;
  params : json;
  id : RequestId
}.

(** The member initialisers of the struct. *)
Definition init : t :=
  {| jsonrpc := "2.0"; method := ""; params := Json.object; id := IdNull |}.

Definition fromJson (j : json) : outcome t :=
  _ ← validateJsonRpc j;
  v ← at_ j "jsonrpc" ≫= get_string;
  m ← at_ j "method" ≫= get_string;
  let p := match find j "params" with
           | Some p => p
           | None => params init
           end in
  i ← match find j "id" with
      | Some (JString s) => Ok (IdString s)
      | Some (JInt n) => Ok (IdInt (to_int64 n))
      | Some JNull => Ok IdNull
      | Some _ => Throw (runtime_error "Invalid id type in JSON-RPC request")
      | None => Ok (id init)
      end;
  mret {| jsonrpc := v; method := m; params := p; id := i |}.

(** [text] is the outcome of [nlohmann::json::parse] on the message. *)
Definition parse (text : outcome json) : outcome t :=
  match text ≫= fromJson with
  | Ok r => Ok r
  | Throw e =>
      Throw (runtime_error ("Failed to parse JSON-RPC request: " +:+ what e))
  end.

Definition toJson (r : t) : json :=
  let j : gmap string json :=
    <["method" := JString (method r)]> (<["jsonrpc" := JString (jsonrpc r)]> ∅) in
  let j := if negb (is_null (params r)) then <["params" := params r]> j else j in
  JObject (<["id" := id_toJson (id r)]> j).

Definition hasId (r : t) : bool :=
  match id r with IdNull => false | _ => true end.

Definition getIdString (r : t) : string :=
  match id r with
  | IdString s => s
  | IdInt n => pretty n
  | IdNull => "null"
  end.

End Request.

Module Response.

Record t : Type := mk {
  jsonrpc : string;
  result : option json;
  error : option Error.t;
  id : RequestId
}.

Definition init : t :=
  {| jsonrpc := "2.0"; result := None; error := None; id := IdNull |}.

Definition success (r : json) (i : RequestId) : t :=
  {| jsonrpc := jsonrpc init; result := Some r; error := error init; id := i |}.

Definition errorResponse (e : Error.t) (i : RequestId) : t :=
  {| jsonrpc := jsonrpc init; result := result init; error := Some e; id := i |}.

Definition toJson (r : t) : json :=
  let j : gmap string json := <["jsonrpc" := JString (jsonrpc r)]> ∅ in
  let j := match result r with Some v => <["result" := v]> j | None => j end in
  let j := match error r with
           | Some e => <["error" := Error.toJson e]> j
           | None => j
           end in
  JObject (<["id" := id_toJson (id r)]> j).

Definition isError (r : t) : bool :=
  match error r with Some _ => true | None => false end.

End Response.

Module Notification.

Record t : Type := mk {
  jsonrpc : string;
  method : string;
  params : json
}.

Definition toJson (n : t) : json :=
  let j : gmap string json :=
    <["method" := JString (method n)]> (<["jsonrpc" := JString (jsonrpc n)]> ∅) in
  JObject (if negb (is_null (params n)) then <["params" := params n]> j else j).

Definition create (m : string) (p : json) : t :=
  {| jsonrpc := "2.0"; method := m; params := p |}.

End Notification.

(** ** jsonrpc/handler.h, jsonrpc/handler.cpp *)

Module MessageHandler.
Section WithState.

(** What the registered closures capture and may change. *)
Variable S : Type.

(** [std::function<nlohmann::json(const nlohmann::json&)>] *)
Definition MethodHandler : Type := json -> io S json.

Record t : Type := mk {
  methods_ : gmap string MethodHandler
}.

Definition init : t := {| methods_ := ∅ |}.

Definition registerMethod (h : t) (method : string) (handler : MethodHandler) : t :=
  {| methods_ := <[method := handler]> (methods_ h) |}.

Definition unregisterMethod (h : t) (method : string) : t :=
  {| methods_ := delete method (methods_ h) |}.

Definition hasMethod (h : t) (method : string) : bool :=
  match methods_ h !! method with Some _ => true | None => false end.

(** Iteration order of an unordered_map is unspecified; the model lists
    the keys in the order of the finite map. *)
Definition getRegisteredMethods (h : t) : list string :=
  (map_to_list (methods_ h)).*1.

(** [hasMethod] followed by [methods_.at] is one lookup. *)
Definition handleRequest (h : t) (request : Request.t) (s : S) : Response.t * S :=
  match methods_ h !! Request.method request with
  | None =>
      (Response.errorResponse
         (Error.fromCode MethodNotFound
            ("Method '" +:+ Request.method request +:+ "' not found") None)
         (Request.id request), s)
  | Some handler =>
      match handler (Request.params request) s with
      | (Ok result, s') => (Response.success result (Request.id request), s')
      | (Throw e, s') =>
          (Response.errorResponse
             (Error.fromCode InternalError (what e) None)
             (Request.id request), s')
      end
  end.

(** [message] is the outcome of [json::parse] on the text received; the
    reply is the value whose dump is returned, [None] for the empty string. *)
Definition handleMessage (h : t) (message : outcome json) (s : S)
  : option json * S :=
  match Request.parse message with
  | Ok request =>
      if negb (Request.hasId request) then
        match methods_ h !! Request.method request with
        | Some handler => (None, (handler (Request.params request) s).2)
        | None => (None, s)
        end
      else
        let '(response, s') := handleRequest h request s in
        (Some (Response.toJson response), s')
  | Throw e =>
      (Some (Response.toJson
               (Response.errorResponse
                  (Error.fromCode ParseError (what e) None) IdNull)), s)
  end.

End WithState.
Arguments mk {S} _.
Arguments methods_ {S} _.
Arguments init {S}.
Arguments registerMethod {S} _ _ _.
Arguments unregisterMethod {S} _ _.
Arguments hasMethod {S} _ _.
Arguments getRegisteredMethods {S} _.
Arguments handleRequest {S} _ _ _.
Arguments handleMessage {S} _ _ _.

End MessageHandler.

(** ** mcp/types.h *)

Definition MCP_VERSION : string := "2024-11-05".

(** [j[key] = v] on a value that is null or an object (it throws on any
    other value, which the callers below never have). *)
Definition json_assign (j : json) (key : string) (v : json) : json :=
  match j with
  | JNull => JObject {[ key := v ]}
  | JObject fields => JObject (<[key := v]> fields)
  | _ => j
  end.

Module ServerInfo.
Record t : Type := mk {
  name : string;
  version : string;
  capabilities : option json
}.
Definition toJson (i : t) : json :=
  let j : gmap string json :=
    <["version" := JString (version i)]> (<["name" := JString (name i)]> ∅) in
  match capabilities i with
  | Some c => JObject (<["capabilities" := c]> j)
  | None => JObject j
  end.
End ServerInfo.

Module ClientInfo.
Record t : Type := mk {
  name : string;
  version : string
}.
Definition init : t := {| name := ""; version := "" |}.
Definition fromJson (j : json) : outcome t :=
  n ← at_ j "name" ≫= get_string;
  v ← at_ j "version" ≫= get_string;
  mret {| name := n; version := v |}.
End ClientInfo.

Module ToolInputSchema.
Record t : Type := mk {
  type : string;
  properties : json;
  required : list string
}.
Definition toJson (s : t) : json :=
  let j : gmap string json :=
    <["properties" := properties s]> (<["type" := JString (type s)]> ∅) in
  if bool_decide (required s = []) then JObject j
  else JObject (<["required" := JArray (JString <$> required s)]> j).
End ToolInputSchema.

Module ToolInfo.
Record t : Type := mk {
  name : string;
  description : string;
  inputSchema : ToolInputSchema.t
}.
Definition toJson (i : t) : json :=
  JObject (<["inputSchema" := ToolInputSchema.toJson (inputSchema i)]>
          (<["description" := JString (description i)]>
          (<["name" := JString (name i)]> ∅))).
End ToolInfo.

Module ServerCapabilities.
Record t : Type := mk {
  tools : bool;
  resources : bool;
  prompts : bool;
  logging : bool
}.
Definition init : t :=
  {| tools := true; resources := false; prompts := false; logging := true |}.
Definition toJson (c : t) : json :=
  let j := JNull in
  let j := if tools c then json_assign j "tools" Json.object else j in
  let j := if resources c then json_assign j "resources" Json.object else j in
  let j := if prompts c then json_assign j "prompts" Json.object else j in
  let j := if logging c then json_assign j "logging" Json.object else j in
  j.
End ServerCapabilities.

Inductive LogLevel : Type := Debug | Info | Warning | Error_.

Definition logLevelToString (level : LogLevel) : string :=
  match level with
  | Debug => "debug"
  | Info => "info"
  | Warning => "warning"
  | Error_ => "error"
  end.

(** ** mcp/tool.h, mcp/server.h, mcp/server.cpp *)

Module Tool.
(** The virtual interface of a tool; [W] is whatever its [execute] acts on. *)
Record t (W : Type) : Type := mk {
  name : string;
  description : string;
  inputSchema : ToolInputSchema.t;
  execute : json -> io W json
}.
Arguments mk {W} _ _ _ _.
Arguments name {W} _.
Arguments description {W} _.
Arguments inputSchema {W} _.
Arguments execute {W} _ _ _.
Definition getInfo {W} (tool : t W) : ToolInfo.t :=
  ToolInfo.mk (name tool) (description tool) (inputSchema tool).
End Tool.

Module Server.
Section WithTools.

Context {W : Type}.
(** [j.dump(indent)], the library's printer; [j.dump()] is [j.dump(-1)].
    It throws (type_error.316) when the value holds a string that is not
    UTF-8. *)
Variable dump : json -> Z -> outcome string.

Record t : Type := mk {
  server_info_ : ServerInfo.t;
  capabilities_ : ServerCapabilities.t;
  tools_ : gmap string (Tool.t W);
  running_ : bool;
  initialized_ : bool;
  client_info_ : ClientInfo.t;
  (** the frames handed to [transport_->send] so far, oldest first *)
  sent_ : list json;
  (** the state the tools act on *)
  world_ : W
}.

Definition set_initialized (b : bool) (srv : t) : t :=
  mk (server_info_ srv) (capabilities_ srv) (tools_ srv) (running_ srv) b
     (client_info_ srv) (sent_ srv) (world_ srv).
Definition set_client_info (c : ClientInfo.t) (srv : t) : t :=
  mk (server_info_ srv) (capabilities_ srv) (tools_ srv) (running_ srv)
     (initialized_ srv) c (sent_ srv) (world_ srv).
Definition set_tools (m : gmap string (Tool.t W)) (srv : t) : t :=
  mk (server_info_ srv) (capabilities_ srv) m (running_ srv)
     (initialized_ srv) (client_info_ srv) (sent_ srv) (world_ srv).
Definition set_world (w : W) (srv : t) : t :=
  mk (server_info_ srv) (capabilities_ srv) (tools_ srv) (running_ srv)
     (initialized_ srv) (client_info_ srv) (sent_ srv) w.
Definition transport_send (frame : json) (srv : t) : t :=
  mk (server_info_ srv) (capabilities_ srv) (tools_ srv) (running_ srv)
     (initialized_ srv) (client_info_ srv) (sent_ srv ++ [frame]) (world_ srv).

(** The constructor. *)
Definition create (server_info : ServerInfo.t) (w : W) : t :=
  let capabilities :=
    ServerCapabilities.mk true (ServerCapabilities.resources ServerCapabilities.init)
      (ServerCapabilities.prompts ServerCapabilities.init) true in
  {| server_info_ :=
       ServerInfo.mk (ServerInfo.name server_info) (ServerInfo.version server_info)
         (Some (ServerCapabilities.toJson capabilities));
     capabilities_ := capabilities;
     tools_ := ∅;
     running_ := false;
     initialized_ := false;
     client_info_ := ClientInfo.init;
     sent_ := [];
     world_ := w |}.

Definition registerTool (tool : Tool.t W) (srv : t) : t :=
  set_tools (<[Tool.name tool := tool]> (tools_ srv)) srv.

Definition unregisterTool (name : string) (srv : t) : t :=
  set_tools (delete name (tools_ srv)) srv.

(** Iteration order of an unordered_map is unspecified; the model lists
    the tools in the order of the finite map. *)
Definition getTools (srv : t) : list ToolInfo.t :=
  Tool.getInfo <$> (map_to_list (tools_ srv)).*2.

Definition handleInitialize (params : json) : io t json :=
  (let* srv := io_get in
   if initialized_ srv then
     io_throw (runtime_error "Server already initialized")
   else
     let* _ := match find params "clientInfo" with
          | Some ci =>
              let* info := io_lift (ClientInfo.fromJson ci) in
              io_modify (set_client_info info)
          | None => io_ret tt
          end in
     let* _ := io_lift (value_string params "protocolVersion" MCP_VERSION) in
     let* _ := io_modify (set_initialized true) in
     let* srv := io_get in
     io_ret (JObject
       (<["capabilities" := ServerCapabilities.toJson (capabilities_ srv)]>
       (<["serverInfo" := ServerInfo.toJson (server_info_ srv)]>
       (<["protocolVersion" := JString MCP_VERSION]> ∅)))))%io.

Definition handleToolsList (params : json) : io t json :=
  (let* srv := io_get in
   if negb (initialized_ srv) then
     io_throw (runtime_error "Server not initialized")
   else
     io_ret (JObject {[ "tools" := JArray (ToolInfo.toJson <$> getTools srv) ]}))%io.

Definition handleToolsCall (params : json) : io t json :=
  (let* srv := io_get in
   if negb (initialized_ srv) then
     io_throw (runtime_error "Server not initialized")
   else
     let* tool_name := io_lift (at_ params "name" ≫= get_string) in
     let* arguments := io_lift (value params "arguments" Json.object) in
     (* [arguments.dump()] is an argument of the call that logs it: it is
        evaluated whatever the log level *)
     let* _ := io_lift (dump arguments (-1)) in
     match tools_ srv !! tool_name with
     | None => io_throw (runtime_error ("Tool not found: " +:+ tool_name))
     | Some tool =>
         fun srv =>
           match Tool.execute tool arguments (world_ srv) with
           | (Ok result, w) =>
               match dump result 2 with
               | Ok text =>
                   (Ok (JObject {[ "content" :=
                          JArray [JObject (<["text" := JString text]>
                                          (<["type" := JString "text"]> ∅))] ]}),
                    set_world w srv)
               | Throw e => (Throw e, set_world w srv)
               end
           | (Throw e, w) => (Throw e, set_world w srv)
           end
     end)%io.

Definition handlePing (params : json) : io t json :=
  io_ret Json.object.

(** [registerMcpMethods]: the registry the constructor fills; nothing else
    writes to [json_handler_]. *)
Definition json_handler_ : MessageHandler.t t :=
  MessageHandler.registerMethod
    (MessageHandler.registerMethod
      (MessageHandler.registerMethod
        (MessageHandler.registerMethod MessageHandler.init
           "initialize" handleInitialize)
        "tools/list" handleToolsList)
      "tools/call" handleToolsCall)
    "ping" handlePing.


(** [notification.serialize()] is [toJson().dump()]; what is handed to the
    transport is recorded as the value that was dumped. *)
Definition sendNotification (method : string) (params : json) : io t unit :=
  let notification := Notification.toJson (Notification.create method params) in
  (let* _ := io_lift (dump notification (-1)) in
   io_modify (transport_send notification))%io.

Definition sendLog (level : LogLevel) (message : string) (data : json) : io t unit :=
  fun srv =>
    let params : gmap string json :=
      <["data" := JString message]>
      (<["logger" := JString (ServerInfo.name (server_info_ srv))]>
      (<["level" := JString (logLevelToString level)]> ∅)) in
    let params := if negb (is_null data) then <["data" := data]> params else params in
    sendNotification "notifications/message" (JObject params) srv.

End WithTools.
Arguments t : clear implicits.
End Server.


(** ** flutter/vm_service_client.h, flutter/vm_service_client.cpp *)

(** What the WebSocket library and the remote end do is not code of the
    repository; the client is run against a description of it. *)

Inductive send_result : Type :=
| SendOk
| SendError (ec_message : string)   (* [ws_client_.send] sets the error code *)
| SendThrows (e : exn).             (* [ws_client_.send] throws *)

(** One call on the wire: how the send went and the frames (each the outcome
    of [json::parse] on its payload) the I/O thread hands to [onMessage],
    in order of arrival, before the caller's wait is over. *)
Record exchange : Type := mk_exchange {
  sending : send_result;
  inbound : list (outcome json)
}.

Inductive open_result : Type :=
| Opened      (* the open handler runs within the five seconds *)
| Refused     (* the fail handler runs and the event loop returns *)
| Silent.     (* neither happens within the five seconds *)

Record transport : Type := mk_transport {
  (** [init_asio] and the handler setup, which may throw *)
  setup : option exn;
  (** [get_connection(full_uri, ec)]: the message of [ec] when it is set *)
  get_connection : string -> option string;
  handshake : string -> open_result;
  (** the exchange of the request with this id, method and params *)
  wire : Z -> string -> json -> exchange
}.

Module VMServiceClient.

(** A [std::promise<json>] and the [std::future] taken from it share one
    state: [None] until a value or an exception is stored. A promise is the
    index of its shared state. *)
Definition promise : Type := nat.

Record t : Type := mk {
  ws_uri_ : string;
  main_isolate_id_ : string;
  connected_ : bool;
  running_ : bool;
  next_request_id_ : Z;
  pending_requests_ : gmap Z promise;
  (** the shared states of all promises made so far *)
  shared_ : list (option (outcome json));
  (** whether [event_callback_] holds a function, *)
  event_callback_ : bool;
  (** and what it has been called with, oldest first *)
  delivered_ : list json;
  (** the frames handed to [ws_client_.send], oldest first *)
  sent_ : list json
}.

(** The state after the constructor. *)
Definition init : t :=
  {| ws_uri_ := ""; main_isolate_id_ := ""; connected_ := false;
     running_ := false; next_request_id_ := 1; pending_requests_ := ∅;
     shared_ := []; event_callback_ := false; delivered_ := []; sent_ := [] |}.

Definition set_ws_uri (u : string) (c : t) : t :=
  mk u (main_isolate_id_ c) (connected_ c) (running_ c) (next_request_id_ c)
     (pending_requests_ c) (shared_ c) (event_callback_ c) (delivered_ c) (sent_ c).
Definition set_main_isolate_id (i : string) (c : t) : t :=
  mk (ws_uri_ c) i (connected_ c) (running_ c) (next_request_id_ c)
     (pending_requests_ c) (shared_ c) (event_callback_ c) (delivered_ c) (sent_ c).
Definition set_connected (b : bool) (c : t) : t :=
  mk (ws_uri_ c) (main_isolate_id_ c) b (running_ c) (next_request_id_ c)
     (pending_requests_ c) (shared_ c) (event_callback_ c) (delivered_ c) (sent_ c).
Definition set_running (b : bool) (c : t) : t :=
  mk (ws_uri_ c) (main_isolate_id_ c) (connected_ c) b (next_request_id_ c)
     (pending_requests_ c) (shared_ c) (event_callback_ c) (delivered_ c) (sent_ c).
Definition set_next_request_id (n : Z) (c : t) : t :=
  mk (ws_uri_ c) (main_isolate_id_ c) (connected_ c) (running_ c) n
     (pending_requests_ c) (shared_ c) (event_callback_ c) (delivered_ c) (sent_ c).
Definition set_pending_requests (m : gmap Z promise) (c : t) : t :=
  mk (ws_uri_ c) (main_isolate_id_ c) (connected_ c) (running_ c)
     (next_request_id_ c) m (shared_ c) (event_callback_ c) (delivered_ c) (sent_ c).
Definition set_shared (l : list (option (outcome json))) (c : t) : t :=
  mk (ws_uri_ c) (main_isolate_id_ c) (connected_ c) (running_ c)
     (next_request_id_ c) (pending_requests_ c) l (event_callback_ c)
     (delivered_ c) (sent_ c).
Definition set_delivered (l : list json) (c : t) : t :=
  mk (ws_uri_ c) (main_isolate_id_ c) (connected_ c) (running_ c)
     (next_request_id_ c) (pending_requests_ c) (shared_ c) (event_callback_ c)
     l (sent_ c).
Definition set_sent (l : list json) (c : t) : t :=
  mk (ws_uri_ c) (main_isolate_id_ c) (connected_ c) (running_ c)
     (next_request_id_ c) (pending_requests_ c) (shared_ c) (event_callback_ c)
     (delivered_ c) l.

(** [setEventCallback]: [callable] tells whether the function given has a
    target. *)
Definition setEventCallback (callable : bool) (c : t) : t :=
  mk (ws_uri_ c) (main_isolate_id_ c) (connected_ c) (running_ c)
     (next_request_id_ c) (pending_requests_ c) (shared_ c) callable
     (delivered_ c) (sent_ c).

(** *** Promises *)

(** [set_value] and [set_exception]: they throw when the state already
    holds something. *)
Definition satisfy (p : promise) (r : outcome json) : io t unit :=
  fun c =>
    match shared_ c !! p with
    | Some None => (Ok tt, set_shared (<[p := Some r]> (shared_ c)) c)
    | Some (Some _) =>
        (Throw (future_error "std::future_error: Promise already satisfied"), c)
    | None => (Throw (future_error "std::future_error: No associated state"), c)
    end.

(** The destructor of a promise: a state nothing was stored in receives
    the broken promise error. *)
Definition abandon (p : promise) (c : t) : t :=
  match shared_ c !! p with
  | Some None =>
      set_shared
        (<[p := Some (Throw (future_error "std::future_error: Broken promise"))]>
           (shared_ c)) c
  | _ => c
  end.

(** [pending_requests_.erase(request_id)] *)
Definition erase (request_id : Z) (c : t) : t :=
  match pending_requests_ c !! request_id with
  | Some p => set_pending_requests (delete request_id (pending_requests_ c)) (abandon p c)
  | None => c
  end.

(** [pending_requests_[request_id] = std::move(promise)] for a new promise. *)
Definition enlist (request_id : Z) (c : t) : promise * t :=
  let p := length (shared_ c) in
  let c := set_shared (shared_ c ++ [None]) c in
  let c := match pending_requests_ c !! request_id with
           | Some old => abandon old c
           | None => c
           end in
  (p, set_pending_requests (<[request_id := p]> (pending_requests_ c)) c).

(** *** The handlers run by the I/O thread *)

Definition onOpen (c : t) : t := set_connected true c.
Definition onFail (c : t) : t := set_connected false c.

(** [message] is the outcome of [json::parse] on the payload. Whatever is
    thrown on the way is caught and logged; what was done before stays. *)
Definition onMessage (message : outcome json) (c : t) : t :=
  match message with
  | Throw _ => c
  | Ok frame =>
      let notification (_ : unit) :=
        match find frame "method" with
        | Some m =>
            if eq_str m "streamNotify" && event_callback_ c then
              set_delivered
                (delivered_ c ++ [default JNull (find frame "params")]) c
            else c
        | None => c
        end in
      match find frame "id" with
      | Some id_json =>
          if negb (is_null id_json) then
            match get_int64 id_json with
            | Throw _ => c
            | Ok id =>
                match pending_requests_ c !! id with
                | Some p =>
                    match find frame "error" with
                    | Some err =>
                        match value_string err "message" "Unknown error" with
                        | Throw _ => c
                        | Ok error_msg =>
                            match satisfy p (Throw (runtime_error error_msg)) c with
                            | (Ok _, c') =>
                                set_pending_requests
                                  (delete id (pending_requests_ c')) c'
                            | (Throw _, c') => c'
                            end
                        end
                    | None =>
                        match satisfy p (Ok (default JNull (find frame "result"))) c with
                        | (Ok _, c') =>
                            set_pending_requests
                              (delete id (pending_requests_ c')) c'
                        | (Throw _, c') => c'
                        end
                    end
                | None => c
                end
            end
          else notification tt
      | None => notification tt
      end
  end.

(** The I/O thread handling frames one after the other. *)
Definition deliver (frames : list (outcome json)) (c : t) : t :=
  foldl (fun c frame => onMessage frame c) c frames.

(** *** disconnect *)

(** The loop over [pending_requests_]: [set_exception] on every promise,
    ignoring the ones already satisfied. *)
Definition fail_promise (c : t) (p : promise) : t :=
  (satisfy p (Throw (runtime_error "Connection closed")) c).2.

Definition fail_all (c : t) : t :=
  foldl fail_promise c (map_to_list (pending_requests_ c)).*2.

(** Frames the I/O thread still handles before it is joined are steps of
    [onMessage] of their own: [onMessage] neither reads nor writes the two
    flags, so it does not matter that they are cleared first. *)
Definition disconnect (c : t) : t :=
  if negb (connected_ c) && negb (running_ c) then c
  else
    let c := set_running false (set_connected false c) in
    let c := set_pending_requests ∅ (fail_all c) in
    set_main_isolate_id "" c.

Definition isConnected (c : t) : bool := connected_ c.
Definition getUri (c : t) : string := ws_uri_ c.

(** *** sendRequest *)

(** [next_request_id_++] on the atomic counter, then the registration. *)
Definition allocate (c : t) : Z * promise * t :=
  let request_id := next_request_id_ c in
  let c := set_next_request_id (to_int64 (request_id + 1)) c in
  let '(p, c) := enlist request_id c in
  (request_id, p, c).

Definition request_frame (request_id : Z) (method : string) (params : json) : json :=
  JObject (<["params" := params]>
          (<["method" := JString method]>
          (<["id" := JInt request_id]>
          (<["jsonrpc" := JString "2.0"]> ∅)))).

(** The wait on the future ends when its state holds something or when the
    timeout has passed: the frames of the exchange are those handled before
    that. *)
Definition sendRequest (tr : transport) (method : string) (params : json)
  : io t json :=
  fun c =>
    if negb (connected_ c) then
      (Throw (runtime_error "Not connected to VM Service"), c)
    else
      let '(request_id, p, c) := allocate c in
      let x := wire tr request_id method params in
      match sending x with
      | SendError ec =>
          (Throw (runtime_error ("Failed to send request: " +:+ ec)),
           erase request_id (erase request_id c))
      | SendThrows e => (Throw e, erase request_id c)
      | SendOk =>
          let c := set_sent (sent_ c ++ [request_frame request_id method params]) c in
          let c := deliver (inbound x) c in
          match shared_ c !! p with
          | Some (Some r) => (r, c)
          | _ => (Throw (runtime_error "Request timeout"), erase request_id c)
          end
      end.

Definition callServiceMethod (tr : transport) (method : string) (params : json)
  : io t json :=
  sendRequest tr method params.

(** [operator[]] with a key on a const reference: on a value that is no
    object it throws.  On an object without the key the assertion of the
    library fails and the call does not come back: [find_main_asserts]
    tells when [getMainIsolateId] gets there, and what is computed below is
    not reached then. *)
Definition const_index (j : json) (key : string) : outcome json :=
  match j with
  | JObject fields =>
      match fields !! key with
      | Some v => Ok v
      | None => Throw (json_exception ("key '" +:+ key +:+ "' not found"))
      end
  | _ => Throw (json_exception
      ("[json.exception.type_error.305] cannot use operator[] with a string argument with "
       +:+ type_name j))
  end.

Definition getIsolateIds (tr : transport) : io t (list string) :=
  (let* vm_info := callServiceMethod tr "getVM" Json.object in
   match find vm_info "isolates" with
   | Some isolates =>
       io_lift
         (foldl (fun acc isolate_ref =>
                   ids ← acc;
                   match isolate_ref with
                   | JObject fields =>
                       match fields !! "id" with
                       | Some i => s ← get_string i; mret (ids ++ [s])
                       | None => mret ids
                       end
                   | _ => mret ids
                   end)
                (Ok []) (iterate isolates))
   | None => io_ret []
   end)%io.

(** The loop of [getMainIsolateId]: the id of the first isolate whose name
    contains "main". *)
Fixpoint find_main (tr : transport) (isolates : list json) : io t (option string) :=
  match isolates with
  | [] => io_ret None
  | isolate_ref :: rest =>
      (let* isolate_id := io_lift (const_index isolate_ref "id" ≫= get_string) in
       let* isolate := callServiceMethod tr "getIsolate"
                         (JObject {[ "isolateId" := JString isolate_id ]}) in
       let* name := io_lift (value_string isolate "name" "") in
       if has_substring "main" name then io_ret (Some isolate_id)
       else find_main tr rest)%io
  end.

Definition getMainIsolateId (tr : transport) : io t string :=
  (let* vm_info := callServiceMethod tr "getVM" Json.object in
   match find vm_info "isolates" with
   | Some isolates =>
       let* found := find_main tr (iterate isolates) in
       match found with
       | Some isolate_id => io_ret isolate_id
       | None =>
           if negb (Json.empty isolates) then
             match isolates with
             | JArray (first :: _) =>
                 io_lift (const_index first "id" ≫= get_string)
             | _ => io_throw (json_exception
                 ("[json.exception.type_error.305] cannot use operator[] with a numeric argument with "
                  +:+ type_name isolates))
             end
           else io_throw (runtime_error "No isolates found")
       end
   | None => io_throw (runtime_error "No isolates found")
   end)%io.

Definition getIsolateInfo (tr : transport) (isolate_id : string) : io t json :=
  callServiceMethod tr "getIsolate" (JObject {[ "isolateId" := JString isolate_id ]}).

Definition streamListen (tr : transport) (stream_id : string) : io t unit :=
  (let* _ := callServiceMethod tr "streamListen"
               (JObject {[ "streamId" := JString stream_id ]}) in
   io_ret tt)%io.

(** *** connect *)

Definition full_uri (uri auth_token : string) : string :=
  if bool_decide (auth_token = "") then uri
  else uri +:+ (if has_substring "?" uri then "&" else "?")
           +:+ "authentication_token=" +:+ auth_token.

Definition connect (tr : transport) (uri auth_token : string) (c : t) : bool * t :=
  if connected_ c then (true, c)
  else
    match setup tr with
    | Some _ => (false, disconnect c)
    | None =>
        let c := set_ws_uri uri c in
        match get_connection tr (full_uri uri auth_token) with
        | Some _ => (false, c)
        | None =>
            let c := set_running true c in
            match handshake tr (full_uri uri auth_token) with
            | Opened =>
                match getMainIsolateId tr (onOpen c) with
                | (Ok isolate_id, c) => (true, set_main_isolate_id isolate_id c)
                | (Throw _, c) => (false, disconnect c)
                end
            | Refused => (false, disconnect (set_running false (onFail c)))
            | Silent => (false, disconnect c)
            end
        end
    end.

(** *** The I/O thread

    [ws_thread_] is followed beside the client: [true] when it holds a
    thread that was started and has not been joined.  [connect] starts the
    thread, [disconnect] joins it unless it returns at its guard, and the
    destructor of the client destroys it. *)


(** [ws_thread_] after [disconnect()]. *)
Definition disconnect_thread (c : t) (ws_thread_ : bool) : bool :=
  if negb (connected_ c) && negb (running_ c) then ws_thread_ else false.

(** [~VMServiceClient]: [disconnect()], then the members are destroyed, and
    a [std::thread] that is still joinable calls [std::terminate]. *)
Definition destroy (c : t) (ws_thread_ : bool) : fate unit :=
  if disconnect_thread c ws_thread_ then Lost else Returns tt.

(** Whether the loop of [getMainIsolateId] reads ["id"] from an object that
    has none.  It does not get that far when a call before throws or when
    an isolate before is the main one. *)
Fixpoint find_main_asserts (tr : transport) (isolates : list json) (c : t) : bool :=
  match isolates with
  | [] => false
  | isolate_ref :: rest =>
      match isolate_ref with
      | JObject fields =>
          match fields !! "id" with
          | None => true
          | Some _ =>
              match find_main tr [isolate_ref] c with
              | (Ok None, c) => find_main_asserts tr rest c
              | _ => false
              end
          end
      | _ => false
      end
  end.

Definition getMainIsolateId_asserts (tr : transport) (c : t) : bool :=
  match callServiceMethod tr "getVM" Json.object c with
  | (Ok vm_info, c) =>
      match find vm_info "isolates" with
      | Some isolates => find_main_asserts tr (iterate isolates) c
      | None => false
      end
  | (Throw _, _) => false
  end.

(** Whether [connect] comes back, and what [ws_thread_] holds when it does;
    the client it leaves is that of [connect].  Assigning the new thread to
    [ws_thread_] destroys the thread it held. *)
Definition connect_thread (tr : transport) (uri auth_token : string) (c : t)
    (ws_thread_ : bool) : fate bool :=
  if connected_ c then Returns ws_thread_
  else
    match setup tr with
    | Some _ => Returns (disconnect_thread c ws_thread_)
    | None =>
        let c := set_ws_uri uri c in
        match get_connection tr (full_uri uri auth_token) with
        | Some _ => Returns ws_thread_
        | None =>
            if ws_thread_ then Lost
            else
              let c := set_running true c in
              match handshake tr (full_uri uri auth_token) with
              | Opened =>
                  if getMainIsolateId_asserts tr (onOpen c) then Lost
                  else
                    match getMainIsolateId tr (onOpen c) with
                    | (Ok _, _) => Returns true
                    | (Throw _, c) => Returns (disconnect_thread c true)
                    end
              | Refused =>
                  Returns (disconnect_thread (set_running false (onFail c)) true)
              | Silent => Returns (disconnect_thread c true)
              end
        end
    end.

End VMServiceClient.

(** What neither a frame nor a call changes: the relation between the
    client before and after. *)
Definition link_kept (c c' : VMServiceClient.t) : Prop :=
  VMServiceClient.connected_ c' = VMServiceClient.connected_ c
  /\ VMServiceClient.running_ c' = VMServiceClient.running_ c
  /\ VMServiceClient.ws_uri_ c' = VMServiceClient.ws_uri_ c
  /\ VMServiceClient.main_isolate_id_ c' = VMServiceClient.main_isolate_id_ c
  /\ VMServiceClient.event_callback_ c' = VMServiceClient.event_callback_ c.

(** ** flutter/instance_discovery.h, flutter/instance_discovery.cpp *)

Record FlutterInstance : Type := mk_FlutterInstance {
  uri : string;
  port : Z;
  project_name : string;
  device : string;
  vm_version : string;
  has_auth : bool;
  auth_token : string;
  discovered_at : Z
}.

(** The machine a scan runs on. *)
Record environment : Type := mk_environment {
  (** what a GET on host and port with this timeout reads, the empty string
      on any failure of the socket calls *)
  http : string -> Z -> Z -> string;
  (** the service met by the n-th client (from 0) a probe connects to a uri *)
  service : string -> nat -> transport;
  (** [system_clock::now()] when the instance of a port is filled in *)
  clock : Z -> Z;
  (** the [std::system_error] of [std::async] when no thread can be started
      for the probe of a port *)
  launch : Z -> option exn
}.

(** [std::sort(first, last, comp)]: insertion from the right, each element
    put before the first one it is less than. *)
Section Sort.
Context {A : Type} (comp : A -> A -> bool).
Fixpoint sort_insert (x : A) (l : list A) : list A :=
  match l with
  | [] => [x]
  | y :: l' => if comp x y then x :: y :: l' else y :: sort_insert x l'
  end.
Definition std_sort (l : list A) : list A := foldr sort_insert [] l.
End Sort.

Module InstanceDiscovery.

Definition httpGet (env : environment) (host : string) (p timeout_ms : Z) : string :=
  http env host p timeout_ms.

Definition string_member (j : json) (key : string) : option string :=
  match find j key with
  | Some (JString s) => Some s
  | _ => None
  end.

Definition extractProjectName (vm_info : json) : string :=
  let from_target (_ : unit) :=
    match find vm_info "targetModel" with
    | Some (JObject model) =>
        match string_member (JObject model) "name" with
        | Some name => if negb (bool_decide (name = "")) then name else "Unknown"
        | None => "Unknown"
        end
    | _ => "Unknown"
    end in
  let from_private (_ : unit) :=
    match string_member vm_info "_name" with
    | Some name =>
        if negb (bool_decide (name = "")) && negb (bool_decide (name = "Unknown"))
        then name else from_target tt
    | None => from_target tt
    end in
  match string_member vm_info "name" with
  | Some name =>
      if negb (bool_decide (name = "")) && negb (bool_decide (name = "Unknown"))
      then name else from_private tt
  | None => from_private tt
  end.

Definition extractDeviceType (vm_info : json) : string :=
  let web (_ : unit) :=
    match find vm_info "targetModel" with
    | Some model =>
        match string_member model "_kind" with
        | Some kind =>
            if has_substring "Chrome" kind then "Chrome"
            else if has_substring "Web" kind then "Web"
            else "Unknown"
        | None => "Unknown"
        end
    | None => "Unknown"
    end in
  match string_member vm_info "operatingSystemVersion" with
  | Some version =>
      if has_substring "Windows" version then "Windows"
      else if has_substring "Linux" version then "Linux"
      else if has_substring "Darwin" version || has_substring "macOS" version
      then "macOS"
      else web tt
  | None => web tt
  end.

(** A client of its own is made, used and destroyed: on every way out the
    destructor runs before the caller goes on. *)
Definition validateFlutterService (tr : transport) (uri : string) : fate bool :=
  ws_thread_ ← VMServiceClient.connect_thread tr uri "" VMServiceClient.init false;
  match VMServiceClient.connect tr uri "" VMServiceClient.init with
  | (true, vm_client) =>
      match VMServiceClient.callServiceMethod tr "getVM" Json.object vm_client with
      | (Ok vm_info, vm_client) =>
          VMServiceClient.destroy (VMServiceClient.disconnect vm_client)
            (VMServiceClient.disconnect_thread vm_client ws_thread_) ;;
          Returns (contains vm_info "type" && contains vm_info "name")
      | (Throw _, vm_client) =>
          VMServiceClient.destroy vm_client ws_thread_ ;; Returns false
      end
  | (false, vm_client) =>
      VMServiceClient.destroy vm_client ws_thread_ ;; Returns false
  end.

Definition ws_uri_of (p : Z) : string := "ws://127.0.0.1:" +:+ pretty p +:+ "/ws".

Definition probePort (env : environment) (p timeout_ms : Z)
  : fate (option FlutterInstance) :=
  let response := httpGet env "127.0.0.1" p timeout_ms in
  if bool_decide (response = "") then Returns None
  else if negb (has_substring "Dart VM" response)
          && negb (has_substring "Observatory" response)
          && negb (has_substring "Flutter" response) then Returns None
  else
    let ws_uri := ws_uri_of p in
    valid ← validateFlutterService (service env ws_uri 0) ws_uri;
    if negb valid then Returns None
    else
      let instance project_name device vm_version :=
        mk_FlutterInstance ws_uri p project_name device vm_version false ""
          (clock env p) in
      let tr := service env ws_uri 1 in
      ws_thread_ ← VMServiceClient.connect_thread tr ws_uri "" VMServiceClient.init false;
      match VMServiceClient.connect tr ws_uri "" VMServiceClient.init with
      | (true, vm_client) =>
          match VMServiceClient.callServiceMethod tr "getVM" Json.object vm_client with
          | (Ok vm_info, vm_client) =>
              match value_string vm_info "version" "Unknown" with
              | Ok version =>
                  VMServiceClient.destroy (VMServiceClient.disconnect vm_client)
                    (VMServiceClient.disconnect_thread vm_client ws_thread_) ;;
                  Returns (Some (instance (extractProjectName vm_info)
                                          (extractDeviceType vm_info) version))
              | Throw _ =>
                  VMServiceClient.destroy vm_client ws_thread_ ;;
                  Returns (Some (instance "Unknown" "Unknown" ""))
              end
          | (Throw _, vm_client) =>
              VMServiceClient.destroy vm_client ws_thread_ ;;
              Returns (Some (instance "Unknown" "Unknown" ""))
          end
      | (false, vm_client) =>
          VMServiceClient.destroy vm_client ws_thread_ ;;
          Returns (Some (instance "" "Unknown" ""))
      end.

(** The comparator handed to [std::sort]. *)
Definition by_port (a b : FlutterInstance) : bool := bool_decide (port a < port b).

(** Ascending order of port. *)
Definition port_le (a b : FlutterInstance) : Prop := port a <= port b.

(** The first loop: [std::async] starts a thread for the probe of each
    port in turn, and throws when there is none to be had.  The ports whose
    probe was started, and the exception that ended the loop. *)
Fixpoint launch_all (env : environment) (ports : list Z) : list Z * option exn :=
  match ports with
  | [] => ([], None)
  | p :: rest =>
      match launch env p with
      | Some e => ([], Some e)
      | None => let '(started, failure) := launch_all env rest in (p :: started, failure)
      end
  end.

(** What the probes that were started return, in the order of their
    ports; the process is lost when one of them loses it. *)
Fixpoint await {A : Type} (futures : list (fate A)) : fate (list A) :=
  match futures with
  | [] => Returns []
  | future :: rest => result ← future; results ← await rest; Returns (result :: results)
  end.

(** The arguments are [int]s.  The futures are taken in the order of the
    ports; each holds what its probe returns, whenever that probe finishes
    ([probePort] throws nothing).  When [std::async] throws, the probes
    started before are waited for by the destructors of their futures.
    When every probe was started and [port_range_end] is the largest [int]
    the counter of the first loop overflows. *)
Definition discoverInstances (env : environment)
    (port_range_start port_range_end timeout_ms : Z)
  : fate (outcome (list FlutterInstance)) :=
  let ports := seqZ port_range_start (port_range_end - port_range_start + 1) in
  let '(started, failure) := launch_all env ports in
  match failure with
  | Some e =>
      await ((fun p => probePort env p timeout_ms) <$> started) ;;
      Returns (Throw e)
  | None =>
      if bool_decide (port_range_start <= port_range_end)
         && bool_decide (port_range_end = 2 ^ 31 - 1) then Lost
      else
        futures ← await ((fun p => probePort env p timeout_ms) <$> started);
        let instances := omap id futures in
        Returns (Ok (std_sort by_port instances))
  end.

End InstanceDiscovery.

(** ** mcp/tool.h: the helpers of the tool base class *)

Module ToolBase.

Definition createSuccessResponse (data : json) (message : string) : json :=
  let response : gmap string json :=
    <["data" := data]> (<["success" := JBool true]> ∅) in
  JObject (if negb (bool_decide (message = ""))
           then <["message" := JString message]> response else response).

Definition createErrorResponse (error : string) (data : json) : json :=
  let response : gmap string json :=
    <["error" := JString error]> (<["success" := JBool false]> ∅) in
  JObject (if negb (is_null data) then <["data" := data]> response else response).

Definition requireParam (args : json) (param : string) : outcome unit :=
  if negb (contains args param) then
    Throw (runtime_error ("Missing required parameter: " +:+ param))
  else Ok tt.

(** [getParam<T>] and [getParamOr<T>]; [get] is [get<T>()]. *)
Definition getParam {T : Type} (get : json -> outcome T) (args : json)
    (param : string) : outcome T :=
  _ ← requireParam args param;
  match find args param with
  | Some v =>
      match get v with
      | Ok x => Ok x
      | Throw e =>
          Throw (runtime_error
                   ("Invalid type for parameter '" +:+ param +:+ "': " +:+ what e))
      end
  | None => Throw (runtime_error ("Missing required parameter: " +:+ param))
  end.

Definition getParamOr {T : Type} (get : json -> outcome T) (args : json)
    (param : string) (defaultValue : T) : T :=
  match find args param with
  | Some v =>
      match get v with
      | Ok x => x
      | Throw _ => defaultValue
      end
  | None => defaultValue
  end.

End ToolBase.

(** ** mcp/transport.h, mcp/stdio_transport.cpp *)

(** [line.back() == '\r' || line.back() == '\n'] *)
Definition is_eol (a : Ascii.ascii) : bool :=
  bool_decide (a = Ascii.ascii_of_nat 13) || bool_decide (a = Ascii.ascii_of_nat 10).

(** The loop that pops carriage returns and line feeds off the end. *)
Fixpoint strip_eol (line : string) : string :=
  match line with
  | EmptyString => EmptyString
  | String a rest =>
      match strip_eol rest with
      | EmptyString => if is_eol a then EmptyString else String a EmptyString
      | kept => String a kept
      end
  end.

Module StdioTransport.

(** Standard input is the list of the lines [std::getline] will read (none
    left at end of file), standard output the list of the messages written,
    each followed by [std::endl].  The streams do not throw (their exception
    mask is never set). *)
Record t : Type := mk {
  ready_ : bool;
  async_running_ : bool;
  stdin_ : list string;
  stdout_ : list string
}.

(** The constructor, on a process with this standard input. *)
Definition create (input : list string) : t :=
  {| ready_ := true; async_running_ := false; stdin_ := input; stdout_ := [] |}.

Definition send (message : string) (tp : t) : t :=
  if negb (ready_ tp) then tp
  else mk (ready_ tp) (async_running_ tp) (stdin_ tp) (stdout_ tp ++ [message]).

Definition receive (tp : t) : string * t :=
  if negb (ready_ tp) then ("", tp)
  else
    match stdin_ tp with
    | line :: rest =>
        let line := strip_eol line in
        if negb (bool_decide (line = "")) then
          (line, mk (ready_ tp) (async_running_ tp) rest (stdout_ tp))
        else ("", mk false (async_running_ tp) rest (stdout_ tp))
    | [] => ("", mk false (async_running_ tp) [] (stdout_ tp))
    end.

Definition isReady (tp : t) : bool := ready_ tp.

(** The receive thread has ended when [stopAsync] returns. *)
Definition stopAsync (tp : t) : t :=
  if negb (async_running_ tp) then tp
  else mk (ready_ tp) false (stdin_ tp) (stdout_ tp).

Definition close (tp : t) : t :=
  let tp := stopAsync tp in
  mk false (async_running_ tp) (stdin_ tp) (stdout_ tp).

Section Loop.

(** [message_callback_] is any function object: it acts on a state [S] of
    its own and can reach the transport it is called from (the server's
    callback sends its reply through it).  Whatever it throws is caught by
    the loop. *)
Context {S : Type} (message_callback_ : option (string -> t * S -> t * S)).

(** One turn of the loop of [receiveLoop]: the state after it and whether
    the loop goes on. *)
Definition receiveLoop_turn (tp : t) (s : S) : t * S * bool :=
  if async_running_ tp && ready_ tp then
    let '(message, tp) := receive tp in
    let '(tp, s) :=
      match message_callback_ with
      | Some callback =>
          if negb (bool_decide (message = "")) then callback message (tp, s)
          else (tp, s)
      | None => (tp, s)
      end in
    (tp, s, ready_ tp)
  else (tp, s, false).

Fixpoint receiveLoop_turns (turns : nat) (tp : t) (s : S) : t * S :=
  match turns with
  | O => (tp, s)
  | Datatypes.S turns =>
      match receiveLoop_turn tp s with
      | (tp, s, true) => receiveLoop_turns turns tp s
      | (tp, s, false) => (tp, s)
      end
  end.

(** Every turn but the last takes a line, and a callback can only take
    lines from standard input, so one turn more than there are lines is
    enough. *)
Definition receiveLoop (tp : t) (s : S) : t * S :=
  receiveLoop_turns (Datatypes.S (length (stdin_ tp))) tp s.

End Loop.

End StdioTransport.

(** ** tools/connect_tool.h, tools/connect_tool.cpp *)

Module ConnectTool.

(** [g_vm_client]: the client shared by the tools, [None] for the null
    pointer.  [net] gives the service behind a uri. *)
Definition client : Type := option VMServiceClient.t.

Definition getVMServiceClient (g : client) : client := g.

Definition isConnected (g : client) : bool :=
  match g with
  | Some c => VMServiceClient.isConnected c
  | None => false
  end.

Definition requireConnection (g : client) : outcome unit :=
  if negb (isConnected g) then
    Throw (runtime_error
      "Not connected to Flutter app. Use 'connect' tool first to establish a connection.")
  else Ok tt.

Definition ensureConnection (net : string -> transport) (uri auth_token : string)
    (g : client) : bool * client :=
  if bool_decide (uri = "") then (isConnected g, g)
  else
    let c := match g with
             | Some c => c
             | None => VMServiceClient.init
             end in
    if VMServiceClient.isConnected c && bool_decide (VMServiceClient.getUri c = uri)
    then (true, Some c)
    else
      let c := if VMServiceClient.isConnected c then VMServiceClient.disconnect c
               else c in
      let '(ok, c) := VMServiceClient.connect (net uri) uri auth_token c in
      (ok, Some c).

(** [DisconnectTool::execute] *)
Definition disconnect_execute (arguments : json) (g : client) : json * client :=
  match g with
  | Some c =>
      if VMServiceClient.isConnected c then
        (ToolBase.createSuccessResponse
           (JObject (<["previous_uri" := JString (VMServiceClient.getUri c)]>
                    (<["connected" := JBool false]> ∅)))
           "Successfully disconnected from Flutter app",
         Some (VMServiceClient.disconnect c))
      else
        (ToolBase.createErrorResponse
           "Not connected to any Flutter app. Use 'connect' first to establish a connection."
           JNull, g)
  | None =>
      (ToolBase.createErrorResponse
         "Not connected to any Flutter app. Use 'connect' first to establish a connection."
         JNull, g)
  end.

End ConnectTool.

(** ** tools/list_instances_tool.cpp *)

Module ListInstancesTool.

Definition instance_json (instance : FlutterInstance) : json :=
  JObject (<["has_auth" := JBool (has_auth instance)]>
          (<["vm_version" := JString (vm_version instance)]>
          (<["device" := JString (device instance)]>
          (<["project_name" := JString (project_name instance)]>
          (<["port" := JInt (port instance)]>
          (<["uri" := JString (uri instance)]> ∅)))))).

(** The text that follows the message of the exception in the reply of
    the handler. *)
Definition troubleshooting : string :=
  let nl := String (Ascii.ascii_of_nat 10) "" in
  nl +:+ nl +:+ "Troubleshooting:" +:+ nl
  +:+ "1. Ensure at least one Flutter app is running with 'flutter run' in debug mode" +:+ nl
  +:+ "2. Verify the port range is correct (typically 8080-8200)" +:+ nl
  +:+ "3. Check that your firewall allows local connections on those ports" +:+ nl
  +:+ "4. Try increasing timeout_ms if running on a slow system" +:+ nl
  +:+ "5. Use flutter_launch to start a Flutter app if none are running".

(** Reading the parameters and building the reply throw nothing: the
    handler around the body is entered from [discoverInstances] only. *)
Definition execute (env : environment) (arguments : json) : fate json :=
  let port_start := ToolBase.getParamOr get_int arguments "port_start" 8080 in
  let port_end := ToolBase.getParamOr get_int arguments "port_end" 8200 in
  let timeout_ms := ToolBase.getParamOr get_int arguments "timeout_ms" 500 in
  if bool_decide (port_start < 1024) || bool_decide (port_start > 65535) then
    Returns (ToolBase.createErrorResponse
      ("Invalid port_start: " +:+ pretty port_start
       +:+ ". Must be between 1024 and 65535.") JNull)
  else if bool_decide (port_end < 1024) || bool_decide (port_end > 65535) then
    Returns (ToolBase.createErrorResponse
      ("Invalid port_end: " +:+ pretty port_end
       +:+ ". Must be between 1024 and 65535.") JNull)
  else if bool_decide (port_start > port_end) then
    Returns (ToolBase.createErrorResponse
      ("Invalid port range: port_start (" +:+ pretty port_start
       +:+ ") must be less than or equal to port_end (" +:+ pretty port_end
       +:+ ").") JNull)
  else if bool_decide (timeout_ms < 100) || bool_decide (timeout_ms > 5000) then
    Returns (ToolBase.createErrorResponse
      ("Invalid timeout_ms: " +:+ pretty timeout_ms
       +:+ ". Must be between 100 and 5000 milliseconds.") JNull)
  else
    let num_ports := port_end - port_start + 1 in
    discovered ←
      InstanceDiscovery.discoverInstances env port_start port_end timeout_ms;
    match discovered with
    | Throw e =>
        Returns (ToolBase.createErrorResponse
          ("Failed to discover Flutter instances: " +:+ what e +:+ troubleshooting)
          JNull)
    | Ok instances =>
        let instances_json := JArray (instance_json <$> instances) in
        if bool_decide (instances = []) then
          Returns (ToolBase.createSuccessResponse
            (JObject (<["count" := JInt 0]> (<["instances" := instances_json]> ∅)))
            "No running Flutter instances found. Start a Flutter app with 'flutter run' or use flutter_launch.")
        else
          Returns (ToolBase.createSuccessResponse
            (JObject
               (<["scan_params" :=
                    JObject (<["ports_scanned" := JInt num_ports]>
                            (<["timeout_ms" := JInt timeout_ms]>
                            (<["port_end" := JInt port_end]>
                            (<["port_start" := JInt port_start]> ∅))))]>
               (<["count" := JInt (to_int32 (Z.of_nat (length instances)))]>
               (<["instances" := instances_json]> ∅))))
            (pretty (Z.of_nat (length instances))
             +:+ " Flutter instance(s) discovered. Use connect(uri='<instance_uri>') to connect to an instance."))
    end.

End ListInstancesTool.

(** ** A scan of five ports, to run the model on *)

Module Scenario.

Definition reply (request_id : Z) (result : json) : outcome json :=
  Ok (JObject (<["result" := result]>
              (<["id" := JInt request_id]> {[ "jsonrpc" := JString "2.0" ]}))).

Definition isolates : json := JArray [JObject {[ "id" := JString "isolates/1" ]}].

Definition vm : json :=
  JObject (<["isolates" := isolates]>
          (<["version" := JString "3.2.0"]>
          (<["name" := JString "counter_app"]>
          {[ "type" := JString "VM" ]}))).

(** A reply to getVM without "type" and "name". *)
Definition vm_without_identity : json := JObject {[ "isolates" := isolates ]}.

(** A service that opens and answers getVM with [info]. *)
Definition answering (info : json) : transport :=
  mk_transport None (fun _ => None) (fun _ => Opened)
    (fun request_id method _ =>
       mk_exchange SendOk
         [if bool_decide (method = "getVM") then reply request_id info
          else reply request_id (JObject {[ "name" := JString "main" ]})]).

(** A socket that never completes the WebSocket handshake. *)
Definition silent : transport :=
  mk_transport None (fun _ => None) (fun _ => Silent)
    (fun _ _ _ => mk_exchange SendOk []).

(** A service that opens and never replies. *)
Definition mute : transport :=
  mk_transport None (fun _ => None) (fun _ => Opened)
    (fun _ _ _ => mk_exchange SendOk []).

Definition machine : environment :=
  mk_environment
    (fun _ p _ =>
       if bool_decide (8080 <= p <= 8084) then "HTTP/1.1 200 OK Dart VM Observatory"
       else "")
    (fun uri _ =>
       if bool_decide (uri = "ws://127.0.0.1:8080/ws") then silent
       else if bool_decide (uri = "ws://127.0.0.1:8081/ws") then answering vm
       else if bool_decide (uri = "ws://127.0.0.1:8082/ws") then
         answering vm_without_identity
       else if bool_decide (uri = "ws://127.0.0.1:8083/ws") then mute
       else answering vm)
    (fun p => 1700000000 + p)
    (fun _ => None).

(** A web server that is no VM Service: it refuses the WebSocket handshake. *)
Definition refusing : transport :=
  mk_transport None (fun _ => None) (fun _ => Refused)
    (fun _ _ _ => mk_exchange SendOk []).

(** The same machine with such a server on port 8085, whose page names
    Flutter. *)
Definition machine_with_web_server : environment :=
  mk_environment
    (fun host p timeout_ms =>
       if bool_decide (p = 8085) then "HTTP/1.1 200 OK Flutter web app"
       else http machine host p timeout_ms)
    (fun uri n =>
       if bool_decide (uri = "ws://127.0.0.1:8085/ws") then refusing
       else service machine uri n)
    (clock machine)
    (launch machine).

End Scenario.

(** * Properties *)

(** ** Helper lemmas *)

Ltac lookups :=
  repeat first
    [ rewrite lookup_insert_eq
    | rewrite lookup_insert_ne by done
    | rewrite lookup_delete_eq
    | rewrite lookup_delete_ne by done
    | rewrite lookup_empty ].

Lemma to_int64_id (n : Z) : is_int64 n -> to_int64 n = n.
Proof.
  unfold is_int64, to_int64. intros H.
  rewrite Z.mod_small; lia.
Qed.

Lemma id_fromJson_toJson (i : RequestId) :
  wf_id i ->
  match id_toJson i with
  | JString s => Ok (IdString s)
  | JInt n => Ok (IdInt (to_int64 n))
  | JNull => Ok IdNull
  | _ => Throw (runtime_error "Invalid id type in JSON-RPC request")
  end = Ok i.
Proof.
  destruct i as [s|n|]; simpl; intros H; try reflexivity.
  by rewrite to_int64_id.
Qed.

Lemma params_shape (p : json) :
  is_object p || is_array p = true ->
  is_null p = false /\ negb (is_object p) && negb (is_array p) = false.
Proof. by destruct p. Qed.

Section MessageModel.

Implicit Types (m : string) (p : json) (i : RequestId).

Lemma Request_fromJson_toJson m p i :
  is_object p || is_array p = true -> wf_id i ->
  Request.fromJson (Request.toJson (Request.mk "2.0" m p i))
  = Ok (Request.mk "2.0" m p i).
Proof.
  intros [Hn Hp]%params_shape Hi.
  unfold Request.toJson, Request.fromJson, validateJsonRpc.
  cbn [Request.jsonrpc Request.method Request.params Request.id].
  rewrite Hn. cbn [negb is_object find at_]. lookups.
  cbn [eq_str negb is_string]. rewrite Hp. cbn. lookups. cbn.
  pose proof (id_fromJson_toJson i Hi) as E.
  destruct (id_toJson i); cbn; try discriminate; by injection E as <-.
Qed.

Lemma Request_fromJson_null_params m i :
  wf_id i ->
  Request.fromJson (Request.toJson (Request.mk "2.0" m JNull i))
  = Ok (Request.mk "2.0" m Json.object i).
Proof.
  intros Hi.
  unfold Request.toJson, Request.fromJson, validateJsonRpc.
  cbn [Request.jsonrpc Request.method Request.params Request.id].
  cbn [negb is_null is_object find at_]. lookups. cbn. lookups. cbn.
  pose proof (id_fromJson_toJson i Hi) as E.
  destruct (id_toJson i); cbn; try discriminate; by injection E as <-.
Qed.

Lemma Request_fromJson_Notification m p :
  is_object p || is_array p = true ->
  Request.fromJson (Notification.toJson (Notification.create m p))
  = Ok (Request.mk "2.0" m p IdNull).
Proof.
  intros [Hn Hp]%params_shape.
  unfold Notification.toJson, Notification.create, Request.fromJson, validateJsonRpc.
  cbn [Notification.jsonrpc Notification.method Notification.params].
  rewrite Hn. cbn [negb is_object find at_]. lookups.
  cbn [eq_str negb is_string]. rewrite Hp. cbn. by lookups.
Qed.

Lemma at_missing (j : json) (key : string) :
  find j key = None -> exists e, at_ j key = Throw e.
Proof. destruct j; cbn; intros H; rewrite ?H; eauto. Qed.

Lemma Request_fromJson_no_method (j : json) :
  find j "method" = None -> exists e, Request.fromJson j = Throw e.
Proof.
  intros [e He]%at_missing. unfold Request.fromJson.
  destruct (validateJsonRpc j) as [[]|e1]; cbn; [|eauto].
  destruct (at_ j "jsonrpc") as [v|e2]; cbn; [|eauto].
  destruct (get_string v) as [s|e3]; cbn; [|eauto].
  rewrite He. cbn. eauto.
Qed.

(** A serialized Response has no "method": the only parser refuses it. *)
Lemma Request_fromJson_Response (resp : Response.t) :
  exists e, Request.fromJson (Response.toJson resp) = Throw e.
Proof.
  apply Request_fromJson_no_method.
  destruct resp as [v [r|] [e|] i]; cbn; by lookups.
Qed.

End MessageModel.

(** C1, as the code has it.  [serialize] dumps [toJson] and [parse] reads
    the text back into the value that was dumped and hands it to
    [fromJson].  For a Request with version "2.0", params that
    are an object or an array and an id that is a string, a 64 bit integer
    or null, parsing what [serialize] produced gives the Request back.  A
    Notification with such params is read back as the Request with the same
    method and params and a null id.  Null params are not kept ([serialize]
    leaves them out and [parse] fills in the empty object), and a serialized
    Response is refused by [parse], which is the only parser. *)
Theorem parse_serialize_roundtrip (m : string) (p : json) (i : RequestId)
    (Hp : is_object p || is_array p = true) (Hi : wf_id i) :
  Request.parse (Ok (Request.toJson (Request.mk "2.0" m p i)))
    = Ok (Request.mk "2.0" m p i)
  /\ Request.parse (Ok (Notification.toJson (Notification.create m p)))
    = Ok (Request.mk "2.0" m p IdNull)
  /\ Request.parse (Ok (Request.toJson (Request.mk "2.0" m JNull i)))
    = Ok (Request.mk "2.0" m Json.object i)
  /\ forall resp, exists e, Request.parse (Ok (Response.toJson resp)) = Throw e.
Proof.
  unfold Request.parse. cbn [mbind outcome_bind].
  rewrite Request_fromJson_toJson, Request_fromJson_Notification,
    Request_fromJson_null_params by done.
  repeat split. intros resp.
  destruct (Request_fromJson_Response resp) as [e ->]. eauto.
Qed.

Lemma parse_serialize_roundtrip_witness :
  Request.parse (Ok (Request.toJson
     (Request.mk "2.0" "tools/call" (JObject {[ "name" := JString "tap" ]}) (IdInt 42))))
  = Ok (Request.mk "2.0" "tools/call" (JObject {[ "name" := JString "tap" ]}) (IdInt 42)).
Proof.
  refine (proj1 (parse_serialize_roundtrip "tools/call"
            (JObject {[ "name" := JString "tap" ]}) (IdInt 42) _ _)).
  - reflexivity.
  - unfold wf_id, is_int64. lia.
Defined.

(** C1 as stated fails on null params: the Request that comes back holds
    the empty object. *)
Lemma parse_serialize_null_params :
  Request.parse (Ok (Request.toJson (Request.mk "2.0" "ping" JNull (IdInt 1))))
  <> Ok (Request.mk "2.0" "ping" JNull (IdInt 1)).
Proof. vm_compute. discriminate. Qed.

(** ** Validation of responses *)

Lemma validateJsonRpc_version (j : json) :
  validateJsonRpc j = Ok tt -> find j "jsonrpc" = Some (JString "2.0").
Proof.
  unfold validateJsonRpc. destruct (is_object j); [|discriminate]. cbn [negb].
  destruct (find j "jsonrpc") as [[| | |s| |]|]; cbn; try discriminate.
  case_bool_decide; [by subst|discriminate].
Qed.

Lemma validateJsonRpc_no_method (j : json) :
  find j "method" = None ->
  validateJsonRpc j = Ok tt ->
  contains j "result" || contains j "error" = true.
Proof.
  unfold validateJsonRpc. intros ->.
  destruct (is_object j); [|discriminate]. cbn [negb].
  destruct (negb _); [discriminate|].
  by destruct (contains j "result"), (contains j "error").
Qed.

Lemma validateJsonRpc_neither (j : json) :
  find j "method" = None ->
  contains j "result" = false -> contains j "error" = false ->
  exists e, validateJsonRpc j = Throw e.
Proof.
  unfold validateJsonRpc. intros -> -> ->.
  destruct (negb (is_object j)); [eauto|]. destruct (negb _); eauto.
Qed.

Lemma handleMessage_invalid {S : Type} (h : MessageHandler.t S) (j : json)
    (e : exn) (s : S) :
  validateJsonRpc j = Throw e ->
  MessageHandler.handleMessage h (Ok j) s
  = (Some (Response.toJson
       (Response.errorResponse
          (Error.mk (-32700)
             ("Failed to parse JSON-RPC request: " +:+ what e) None) IdNull)), s).
Proof.
  intros He. unfold MessageHandler.handleMessage, Request.parse, Request.fromJson.
  cbn [mbind outcome_bind]. rewrite He. cbn [mbind outcome_bind].
  reflexivity.
Qed.

(** C2, as the code has it.  A message without "method" that carries
    neither "result" nor "error" is refused by [validateJsonRpc]; the
    failure is a runtime error, which [handleMessage] reports with the code
    of ParseError.  A message without "method" that is accepted carries at
    least one of the two.  [Response::success] sets the result only and
    [Response::errorResponse] the error only. *)
Theorem response_result_or_error (j : json) (Hm : find j "method" = None) :
  (validateJsonRpc j = Ok tt -> contains j "result" || contains j "error" = true)
  /\ (contains j "result" = false -> contains j "error" = false ->
      exists e, validateJsonRpc j = Throw e
        /\ forall (S : Type) (h : MessageHandler.t S) (s : S),
             MessageHandler.handleMessage h (Ok j) s
             = (Some (Response.toJson
                  (Response.errorResponse
                     (Error.mk (ErrorCode_value ParseError)
                        ("Failed to parse JSON-RPC request: " +:+ what e) None)
                     IdNull)), s))
  /\ (forall r i, Response.result (Response.success r i) = Some r
                  /\ Response.error (Response.success r i) = None)
  /\ (forall e i, Response.result (Response.errorResponse e i) = None
                  /\ Response.error (Response.errorResponse e i) = Some e).
Proof.
  split; [by apply validateJsonRpc_no_method|].
  split; [|by split].
  intros Hr He. destruct (validateJsonRpc_neither j Hm Hr He) as [e Hv].
  exists e. split; [done|]. intros S h s. by apply handleMessage_invalid.
Qed.

Lemma response_result_or_error_witness :
  exists e,
    validateJsonRpc (JObject (<["id" := JInt 1]> {[ "jsonrpc" := JString "2.0" ]}))
    = Throw e.
Proof.
  assert (Hm : find (JObject (<["id" := JInt 1]> {[ "jsonrpc" := JString "2.0" ]}))
                 "method" = None) by reflexivity.
  destruct (response_result_or_error _ Hm) as [_ [H _]].
  destruct H as [e [He _]]; [reflexivity | reflexivity |].
  exists e. exact He.
Defined.

(** C2 as stated fails: a message that carries both a result and an error
    passes validation. *)
Lemma result_and_error_accepted :
  let j := JObject (<["id" := JInt 1]>
                   (<["error" := Error.toJson (Error.fromCode InternalError "" None)]>
                   (<["result" := JInt 1]>
                   {[ "jsonrpc" := JString "2.0" ]}))) in
  validateJsonRpc j = Ok tt
  /\ contains j "result" = true /\ contains j "error" = true.
Proof. vm_compute. auto. Qed.

(** ** Dispatch *)

Lemma handleRequest_throw {S : Type} (h : MessageHandler.t S)
    (handler : MessageHandler.MethodHandler S) (request : Request.t)
    (e : exn) (s s' : S) :
  MessageHandler.methods_ h !! Request.method request = Some handler ->
  handler (Request.params request) s = (Throw e, s') ->
  MessageHandler.handleRequest h request s
  = (Response.errorResponse (Error.fromCode InternalError (what e) None)
       (Request.id request), s').
Proof.
  intros Hh He. unfold MessageHandler.handleRequest.
  unfold MessageHandler.MethodHandler, io in *. by rewrite Hh, He.
Qed.

(** C7, as the code has it.  When the handler registered for the method of
    a Request throws, [handleRequest] returns, with the effects the handler
    had, the error Response of the request's id whose code is InternalError,
    whose message is what the exception says ("Internal error" when it says
    nothing) and which has no data. *)
Theorem handler_failure_is_internal_error {S : Type} (h : MessageHandler.t S)
    (handler : MessageHandler.MethodHandler S) (request : Request.t)
    (e : exn) (s s' : S)
    (Hh : MessageHandler.methods_ h !! Request.method request = Some handler)
    (He : handler (Request.params request) s = (Throw e, s')) :
  MessageHandler.handleRequest h request s
  = ({| Response.jsonrpc := "2.0";
        Response.result := None;
        Response.error :=
          Some {| Error.code := -32603;
                  Error.message :=
                    if bool_decide (what e = "") then "Internal error" else what e;
                  Error.data := None |};
        Response.id := Request.id request |}, s').
Proof. by rewrite (handleRequest_throw h handler request e s s'). Qed.

Lemma handler_failure_is_internal_error_witness :
  MessageHandler.handleRequest
    (MessageHandler.registerMethod MessageHandler.init "boom"
       (fun _ => io_throw (runtime_error "it broke")))
    (Request.mk "2.0" "boom" Json.object (IdInt 3)) tt
  = (Response.mk "2.0" None
       (Some (Error.mk (-32603) "it broke" None)) (IdInt 3), tt).
Proof.
  exact (handler_failure_is_internal_error
           (MessageHandler.registerMethod MessageHandler.init "boom"
              (fun _ => io_throw (runtime_error "it broke")))
           (fun _ => io_throw (runtime_error "it broke"))
           (Request.mk "2.0" "boom" Json.object (IdInt 3))
           (runtime_error "it broke") tt tt eq_refl eq_refl).
Defined.

(** C7 as stated fails: the message of the failure is not in the data of
    the error, which is absent. *)
Lemma handler_failure_has_no_data :
  let response :=
    (MessageHandler.handleRequest
       (MessageHandler.registerMethod MessageHandler.init "boom"
          (fun _ => io_throw (runtime_error "it broke")))
       (Request.mk "2.0" "boom" Json.object (IdInt 3)) tt).1 in
  ~ exists err, Response.error response = Some err
                /\ Error.data err = Some (JString "it broke").
Proof.
  cbv zeta. vm_compute. intros [err [H1 H2]].
  injection H1 as <-. discriminate H2.
Qed.

(** ** The version member of the envelope *)

Lemma Response_toJson_version (r : Response.t) :
  Response.jsonrpc r = "2.0" ->
  find (Response.toJson r) "jsonrpc" = Some (JString "2.0")
  /\ find (Response.toJson r) "protocolVersion" = None.
Proof.
  destruct r as [v [r|] [e|] i]; cbn; intros ->; by lookups.
Qed.

Lemma handleRequest_version {S : Type} (h : MessageHandler.t S)
    (request : Request.t) (s : S) :
  Response.jsonrpc (MessageHandler.handleRequest h request s).1 = "2.0".
Proof.
  unfold MessageHandler.handleRequest.
  destruct (_ !! _) as [handler|]; [|done].
  by destruct (handler _ _) as [[result|e] s'].
Qed.

Lemma handleMessage_version {S : Type} (h : MessageHandler.t S)
    (message : outcome json) (s : S) (reply : json) :
  (MessageHandler.handleMessage h message s).1 = Some reply ->
  find reply "jsonrpc" = Some (JString "2.0")
  /\ find reply "protocolVersion" = None.
Proof.
  unfold MessageHandler.handleMessage.
  destruct (Request.parse message) as [request|e].
  - destruct (negb _).
    + by destruct (_ !! _).
    + pose proof (handleRequest_version h request s) as Hv.
      destruct (MessageHandler.handleRequest h request s) as [response s'].
      cbn. intros [= <-]. by apply Response_toJson_version.
  - cbn. intros [= <-]. by apply Response_toJson_version.
Qed.

(** The frame handler of the VM Service client reads the members "id",
    "error", "result", "method" and "params" only. *)
Lemma onMessage_version_unread (fields : gmap string json) (version : json)
    (c : VMServiceClient.t) :
  VMServiceClient.onMessage (Ok (JObject (<["jsonrpc" := version]> fields))) c
  = VMServiceClient.onMessage (Ok (JObject (delete "jsonrpc" fields))) c.
Proof.
  unfold VMServiceClient.onMessage. cbn [find].
  rewrite !lookup_insert_ne, !lookup_delete_ne by done. reflexivity.
Qed.

(** C8, as the code has it.  The version member of every frame that is
    produced (the replies of the message handler, the notifications, the
    requests of the VM Service client) is called "jsonrpc" and holds "2.0";
    replies have no "protocolVersion" member.  The message handler accepts a
    frame only when it has that member with that value.  The VM Service
    client does not look at the member in the frames it receives: a frame is
    handled in the same way whatever it holds there, and when it is missing.
    The request {"jsonrpc":"2.0","method":"echo","params":{"x":1},"id":7},
    dispatched with a handler echo(p) -> p registered, is answered with
    {"jsonrpc":"2.0","result":{"x":1},"id":7}. *)
Theorem envelope_version_member :
  MessageHandler.handleMessage
    (MessageHandler.registerMethod MessageHandler.init "echo" (fun p => io_ret p))
    (Ok (JObject (<["id" := JInt 7]>
                 (<["params" := JObject {[ "x" := JInt 1 ]}]>
                 (<["method" := JString "echo"]>
                 {[ "jsonrpc" := JString "2.0" ]}))))) tt
  = (Some (JObject (<["id" := JInt 7]>
                   (<["result" := JObject {[ "x" := JInt 1 ]}]>
                   {[ "jsonrpc" := JString "2.0" ]}))), tt)
  /\ (forall j, validateJsonRpc j = Ok tt ->
        find j "jsonrpc" = Some (JString "2.0"))
  /\ (forall (S : Type) (h : MessageHandler.t S) message s reply,
        (MessageHandler.handleMessage h message s).1 = Some reply ->
        find reply "jsonrpc" = Some (JString "2.0")
        /\ find reply "protocolVersion" = None)
  /\ (forall request_id m p,
        find (VMServiceClient.request_frame request_id m p) "jsonrpc"
        = Some (JString "2.0"))
  /\ (forall m p,
        find (Notification.toJson (Notification.create m p)) "jsonrpc"
        = Some (JString "2.0"))
  /\ (forall (fields : gmap string json) (version : json) c,
        VMServiceClient.onMessage (Ok (JObject (<["jsonrpc" := version]> fields))) c
        = VMServiceClient.onMessage (Ok (JObject (delete "jsonrpc" fields))) c).
Proof.
  split; [by vm_compute|].
  split; [apply validateJsonRpc_version|].
  split; [intros S h message s reply; apply handleMessage_version|].
  split; [intros; cbn; by lookups|].
  split; [|apply onMessage_version_unread].
  intros m p. unfold Notification.toJson. cbn.
  destruct (negb (is_null p)); cbn; by lookups.
Qed.

(** C8 as stated fails: a request whose version member is called
    "protocolVersion" is not dispatched; the reply is the ParseError
    response with a null id. *)
Lemma protocolVersion_request_refused :
  let reply :=
    (MessageHandler.handleMessage
       (MessageHandler.registerMethod MessageHandler.init "echo" (fun p => io_ret p))
       (Ok (JObject (<["id" := JInt 7]>
                    (<["params" := JObject {[ "x" := JInt 1 ]}]>
                    (<["method" := JString "echo"]>
                    {[ "protocolVersion" := JString "2.0" ]}))))) tt).1 in
  reply <> Some (JObject (<["id" := JInt 7]>
                         (<["result" := JObject {[ "x" := JInt 1 ]}]>
                         {[ "protocolVersion" := JString "2.0" ]})))
  /\ (reply ≫= fun j => find j "result") = None
  /\ (reply ≫= fun j => find j "id") = Some JNull
  /\ (reply ≫= fun j => find j "error" ≫= fun e => find e "code")
     = Some (JInt (ErrorCode_value ParseError)).
Proof.
  cbv zeta. split; [|by vm_compute].
  intros H. apply (f_equal (fun r => r ≫= fun j => find j "result")) in H.
  vm_compute in H. discriminate H.
Qed.

(** ** The server before "initialize" *)

Section Gate.

Context {W : Type} (dump : json -> Z -> outcome string).
Implicit Types (srv : Server.t W) (request : Request.t).

Lemma handleToolsList_uninitialized srv params :
  Server.initialized_ srv = false ->
  Server.handleToolsList params srv
  = (Throw (runtime_error "Server not initialized"), srv).
Proof. intros H. unfold Server.handleToolsList, io_bind, io_get. by rewrite H. Qed.

Lemma handleToolsCall_uninitialized srv params :
  Server.initialized_ srv = false ->
  Server.handleToolsCall dump params srv
  = (Throw (runtime_error "Server not initialized"), srv).
Proof. intros H. unfold Server.handleToolsCall, io_bind, io_get. by rewrite H. Qed.

(** "initialize" on a server that is initialized fails and changes
    nothing. *)
Lemma handleInitialize_twice srv params :
  Server.initialized_ srv = true ->
  Server.handleInitialize params srv
  = (Throw (runtime_error "Server already initialized"), srv).
Proof. intros H. unfold Server.handleInitialize, io_bind, io_get. by rewrite H. Qed.

Lemma json_handler_lookup (method : string) :
  MessageHandler.methods_ (Server.json_handler_ dump) !! method
  = if bool_decide (method = "ping") then Some (Server.handlePing (W:=W))
    else if bool_decide (method = "tools/call") then Some (Server.handleToolsCall dump)
    else if bool_decide (method = "tools/list") then Some Server.handleToolsList
    else if bool_decide (method = "initialize") then Some Server.handleInitialize
    else None.
Proof.
  unfold Server.json_handler_, MessageHandler.registerMethod. cbn.
  repeat (case_bool_decide; [subst; by lookups|rewrite lookup_insert_ne by done]).
  by rewrite lookup_empty.
Qed.

End Gate.

(** C3, as the code has it.  While the server is not initialized, a
    request for "tools/list" or "tools/call" is answered with the error
    Response of code InternalError and message "Server not initialized":
    the check is made by these two handlers, after the registry has been
    consulted.  A request for a method that is not registered is answered
    with MethodNotFound, and "ping" is served.  The server is left as it
    was in all three cases. *)
Theorem requests_before_initialize {W : Type} (dump : json -> Z -> outcome string)
    (srv : Server.t W) (request : Request.t)
    (Hu : Server.initialized_ srv = false) :
  (Request.method request = "tools/list" \/ Request.method request = "tools/call" ->
   MessageHandler.handleRequest (Server.json_handler_ dump) request srv
   = (Response.errorResponse
        (Error.mk (ErrorCode_value InternalError) "Server not initialized" None)
        (Request.id request), srv))
  /\ (Request.method request ∉ ["initialize"; "tools/list"; "tools/call"; "ping"] ->
      MessageHandler.handleRequest (Server.json_handler_ dump) request srv
      = (Response.errorResponse
           (Error.mk (ErrorCode_value MethodNotFound)
              ("Method '" +:+ Request.method request +:+ "' not found") None)
           (Request.id request), srv))
  /\ (Request.method request = "ping" ->
      MessageHandler.handleRequest (Server.json_handler_ dump) request srv
      = (Response.success Json.object (Request.id request), srv)).
Proof.
  unfold MessageHandler.handleRequest.
  pose proof (json_handler_lookup (W:=W) dump (Request.method request)) as Hl.
  unfold MessageHandler.MethodHandler, io in *. rewrite Hl. clear Hl.
  repeat split.
  - intros [-> | ->].
    + change (bool_decide ("tools/list" = "ping")) with false.
      change (bool_decide ("tools/list" = "tools/call")) with false.
      change (bool_decide ("tools/list" = "tools/list")) with true.
      cbv iota. by rewrite handleToolsList_uninitialized.
    + change (bool_decide ("tools/call" = "ping")) with false.
      change (bool_decide ("tools/call" = "tools/call")) with true.
      cbv iota. by rewrite handleToolsCall_uninitialized.
  - intros Hn. repeat (case_bool_decide; [set_solver|]).
    unfold Error.fromCode. case_bool_decide as He; [|done].
    by vm_compute in He.
  - by intros ->.
Qed.

Lemma requests_before_initialize_witness :
  MessageHandler.handleRequest (Server.json_handler_ (fun _ _ => Ok ""))
    (Request.mk "2.0" "tools/list" Json.object (IdInt 2))
    (Server.create (ServerInfo.mk "FlutterReflect" "1.0.0" None) tt)
  = (Response.errorResponse (Error.mk (-32603) "Server not initialized" None)
       (IdInt 2),
     Server.create (ServerInfo.mk "FlutterReflect" "1.0.0" None) tt).
Proof.
  apply (requests_before_initialize (fun _ _ => Ok "")
           (Server.create (ServerInfo.mk "FlutterReflect" "1.0.0" None) tt)
           (Request.mk "2.0" "tools/list" Json.object (IdInt 2)) eq_refl).
  left. reflexivity.
Defined.

(** C3 as stated fails: before "initialize", a request for a method that
    is not registered is answered with MethodNotFound. *)
Lemma unregistered_method_before_initialize :
  let srv := Server.create (ServerInfo.mk "FlutterReflect" "1.0.0" None) tt in
  let response :=
    (MessageHandler.handleRequest (Server.json_handler_ (fun _ _ => Ok ""))
       (Request.mk "2.0" "foo" Json.object (IdInt 1)) srv).1 in
  Server.initialized_ srv = false
  /\ (Error.code <$> Response.error response)
     = Some (ErrorCode_value MethodNotFound).
Proof. cbv zeta. split; reflexivity. Qed.

(** ** The VM Service client *)

Section Client.

Import VMServiceClient.
Implicit Types (c : VMServiceClient.t) (p q : promise) (r : outcome json).

(** C9.  [connect] on a client that is connected returns true and leaves
    the client as it is, whatever the uri and the token: nothing is opened
    or sent, and the uri of the existing connection is kept. *)
Theorem connect_already_connected (tr : transport) (uri auth_token : string) c
    (Hc : connected_ c = true) :
  connect tr uri auth_token c = (true, c).
Proof. unfold connect. by rewrite Hc. Qed.

Lemma connect_already_connected_witness :
  let c := set_connected true (set_ws_uri "ws://127.0.0.1:8181/ws" init) in
  let tr := mk_transport None (fun _ => None) (fun _ => Opened)
              (fun _ _ _ => mk_exchange SendOk []) in
  connect tr "ws://127.0.0.1:9999/ws" "secret" c = (true, c)
  /\ getUri (connect tr "ws://127.0.0.1:9999/ws" "secret" c).2
     = "ws://127.0.0.1:8181/ws".
Proof.
  cbv zeta. split.
  - apply connect_already_connected. reflexivity.
  - reflexivity.
Defined.

Lemma satisfy_ok p r c :
  shared_ c !! p = Some None ->
  satisfy p r c = (Ok tt, set_shared (<[p := Some r]> (shared_ c)) c).
Proof. intros H. unfold satisfy. by rewrite H. Qed.

(** C10.  A frame with an integer id under which a call is pending, and
    with no "error" member, fulfils that call with the frame's "result"
    and removes it from the table; the result is null when the frame has
    no "result" member either. *)
Theorem reply_without_error_fulfils c (frame : json) (n : Z) p
    (Hid : find frame "id" = Some (JInt n))
    (Hp : pending_requests_ c !! to_int64 n = Some p)
    (Hs : shared_ c !! p = Some None)
    (He : find frame "error" = None) :
  onMessage (Ok frame) c
  = set_pending_requests (delete (to_int64 n) (pending_requests_ c))
      (set_shared (<[p := Some (Ok (default JNull (find frame "result")))]>
                     (shared_ c)) c)
  /\ (find frame "result" = None ->
      shared_ (onMessage (Ok frame) c) !! p = Some (Some (Ok JNull))
      /\ pending_requests_ (onMessage (Ok frame) c) !! to_int64 n = None).
Proof.
  assert (E : onMessage (Ok frame) c
    = set_pending_requests (delete (to_int64 n) (pending_requests_ c))
        (set_shared (<[p := Some (Ok (default JNull (find frame "result")))]>
                       (shared_ c)) c)).
  { unfold onMessage. rewrite Hid. cbn [is_null negb get_int64].
    rewrite Hp, He. by rewrite satisfy_ok. }
  split; [exact E|]. intros Hr. rewrite E, Hr. cbn. split.
  - apply list_lookup_insert_eq. by eapply lookup_lt_Some.
  - apply lookup_delete_eq.
Qed.

Lemma reply_without_error_fulfils_witness :
  let c := set_pending_requests {[ 5 := 0%nat ]}
             (set_shared [None] (set_connected true init)) in
  let frame := JObject (<["id" := JInt 5]> {[ "jsonrpc" := JString "2.0" ]}) in
  shared_ (onMessage (Ok frame) c) !! 0%nat = Some (Some (Ok JNull))
  /\ pending_requests_ (onMessage (Ok frame) c) !! to_int64 5 = None.
Proof.
  cbv zeta.
  refine (proj2 (reply_without_error_fulfils _ _ 5 0%nat _ _ _ _) _);
    reflexivity.
Defined.

(** *** disconnect *)

Lemma fail_promise_pending c p :
  pending_requests_ (fail_promise c p) = pending_requests_ c.
Proof. unfold fail_promise, satisfy. by destruct (shared_ c !! p) as [[?|]|]. Qed.

Lemma fail_promise_flags c p :
  connected_ (fail_promise c p) = connected_ c
  /\ running_ (fail_promise c p) = running_ c.
Proof. unfold fail_promise, satisfy. by destruct (shared_ c !! p) as [[?|]|]. Qed.






Lemma foldl_fail_promise_fields (l : list promise) c :
  pending_requests_ (foldl fail_promise c l) = pending_requests_ c
  /\ connected_ (foldl fail_promise c l) = connected_ c
  /\ running_ (foldl fail_promise c l) = running_ c.
Proof.
  revert c. induction l as [|p l IH]; intros c; [done|].
  cbn. destruct (IH (fail_promise c p)) as (-> & -> & ->).
  rewrite fail_promise_pending. by destruct (fail_promise_flags c p) as [-> ->].
Qed.

Lemma disconnect_active c :
  connected_ c = true \/ running_ c = true ->
  disconnect c
  = set_main_isolate_id ""
      (set_pending_requests ∅
         (fail_all (set_running false (set_connected false c)))).
Proof.
  intros Hc. unfold disconnect.
  destruct Hc as [-> | ->]; [done|]. by rewrite andb_false_r.
Qed.

Lemma disconnect_idle c :
  connected_ c = false -> running_ c = false -> disconnect c = c.
Proof. intros H1 H2. unfold disconnect. by rewrite H1, H2. Qed.




(** *** Frames and the pending table *)

(** What one frame can do to the client. *)
Lemma onMessage_cases (message : outcome json) c :
  onMessage message c = c
  \/ (exists event, onMessage message c
                    = set_delivered (delivered_ c ++ [event]) c)
  \/ (exists request_id q r,
        pending_requests_ c !! request_id = Some q
        /\ shared_ c !! q = Some None
        /\ onMessage message c
           = set_pending_requests (delete request_id (pending_requests_ c))
               (set_shared (<[q := Some r]> (shared_ c)) c)).
Proof.
  unfold onMessage. destruct message as [frame|e]; [|by left].
  assert (Hn : forall m : option json,
    match m with
    | Some m =>
        if eq_str m "streamNotify" && event_callback_ c
        then set_delivered (delivered_ c ++ [default JNull (find frame "params")]) c
        else c
    | None => c
    end = c
    \/ exists event,
        match m with
        | Some m =>
            if eq_str m "streamNotify" && event_callback_ c
            then set_delivered (delivered_ c ++ [default JNull (find frame "params")]) c
            else c
        | None => c
        end = set_delivered (delivered_ c ++ [event]) c).
  { intros [m|]; [|by left]. destruct (_ && _); [right; eauto|by left]. }
  destruct (find frame "id") as [id_json|]; [|destruct (Hn (find frame "method")); auto].
  destruct (negb (is_null id_json)); [|destruct (Hn (find frame "method")); auto].
  destruct (get_int64 id_json) as [request_id|]; [|by left].
  destruct (pending_requests_ c !! request_id) as [q|] eqn:Hq; [|by left].
  destruct (find frame "error") as [err|].
  - destruct (value_string err "message" "Unknown error") as [msg|]; [|by left].
    unfold satisfy. destruct (shared_ c !! q) as [[?|]|] eqn:Hs; try by left.
    right; right. by exists request_id, q, (Throw (runtime_error msg)).
  - unfold satisfy. destruct (shared_ c !! q) as [[?|]|] eqn:Hs; try by left.
    right; right. by exists request_id, q, (Ok (default JNull (find frame "result"))).
Qed.

Lemma onMessage_resolved (message : outcome json) c p r :
  shared_ c !! p = Some (Some r) ->
  shared_ (onMessage message c) !! p = Some (Some r).
Proof.
  intros Hp.
  destruct (onMessage_cases message c)
    as [-> | [[event ->] | (request_id & q & r' & Hq & Hs & ->)]]; try done.
  cbn. rewrite list_lookup_insert_ne; [done|]. intros ->. congruence.
Qed.

Lemma deliver_cons (f : outcome json) (frames : list (outcome json)) c :
  deliver (f :: frames) c = deliver frames (onMessage f c).
Proof. reflexivity. Qed.

Lemma deliver_resolved (frames : list (outcome json)) c p r :
  shared_ c !! p = Some (Some r) ->
  shared_ (deliver frames c) !! p = Some (Some r).
Proof.
  revert c. induction frames as [|f frames IH]; intros c Hp; [done|].
  rewrite deliver_cons. apply IH. by apply onMessage_resolved.
Qed.

(** A call stays in the table as long as its promise holds nothing. *)
Lemma deliver_waiting (frames : list (outcome json)) c (request_id : Z) p :
  pending_requests_ c !! request_id = Some p ->
  shared_ (deliver frames c) !! p = Some None ->
  pending_requests_ (deliver frames c) !! request_id = Some p.
Proof.
  revert c. induction frames as [|f frames IH]; intros c Hp Hw; [done|].
  rewrite deliver_cons in *. apply IH; [|done].
  destruct (onMessage_cases f c)
    as [E | [[event E] | (request_id' & q & r & Hq & Hs & E)]];
    rewrite E in *; try done.
  cbn. destruct (decide (request_id' = request_id)) as [->|Hne].
  - assert (q = p) as -> by congruence.
    rewrite (deliver_resolved frames _ p r) in Hw; [done|].
    cbn. apply list_lookup_insert_eq. by eapply lookup_lt_Some.
  - by rewrite lookup_delete_ne.
Qed.

Lemma allocate_spec c :
  exists c1,
    allocate c = (next_request_id_ c, length (shared_ c), c1)
    /\ pending_requests_ c1 !! next_request_id_ c = Some (length (shared_ c))
    /\ connected_ c1 = connected_ c.
Proof.
  unfold allocate, enlist. cbn.
  destruct (pending_requests_ c !! next_request_id_ c) as [old|];
    [unfold abandon; cbn; destruct (_ !! old) as [[?|]|]|];
    eexists; (split; [reflexivity|]); cbn; by rewrite lookup_insert_eq.
Qed.

(** A frame whose id is not in the table changes nothing. *)
Lemma onMessage_unmatched (frame : json) (n : Z) c :
  find frame "id" = Some (JInt n) ->
  pending_requests_ c !! to_int64 n = None ->
  onMessage (Ok frame) c = c.
Proof. intros Hid Hp. unfold onMessage. rewrite Hid. cbn. by rewrite Hp. Qed.

(** C4.  A call is sent; when the frames handled during its wait leave
    its promise empty, [sendRequest] throws "Request timeout" and the
    caller has removed the entry of this call from the table.  The entries
    of the other calls and the states of their promises are as they were
    when the wait ended, and a frame that arrives afterwards with the id of
    the call changes nothing. *)
Theorem timed_out_call_is_removed (tr : transport) (method : string)
    (params : json) c (request_id : Z) p (c1 c2 : VMServiceClient.t)
    (Hc : connected_ c = true)
    (Ha : allocate c = (request_id, p, c1))
    (Hsend : sending (wire tr request_id method params) = SendOk)
    (Hc2 : c2 = deliver (inbound (wire tr request_id method params))
                  (set_sent (sent_ c1 ++ [request_frame request_id method params]) c1))
    (Hwait : shared_ c2 !! p = Some None) :
  exists c',
    sendRequest tr method params c = (Throw (runtime_error "Request timeout"), c')
    /\ pending_requests_ c' !! request_id = None
    /\ (forall other, other <> request_id ->
          pending_requests_ c' !! other = pending_requests_ c2 !! other)
    /\ (forall q, q <> p -> shared_ c' !! q = shared_ c2 !! q)
    /\ (forall (late : json) (n : Z),
          find late "id" = Some (JInt n) -> to_int64 n = request_id ->
          onMessage (Ok late) c' = c').
Proof.
  destruct (allocate_spec c) as (c1' & Ha' & Hp1 & _).
  rewrite Ha in Ha'. injection Ha' as -> -> <-.
  assert (Hp2 : pending_requests_ c2 !! next_request_id_ c = Some (length (shared_ c))).
  { subst c2. by apply deliver_waiting. }
  exists (erase (next_request_id_ c) c2).
  assert (He : erase (next_request_id_ c) c2
    = set_pending_requests (delete (next_request_id_ c) (pending_requests_ c2))
        (set_shared
           (<[length (shared_ c) :=
                Some (Throw (future_error "std::future_error: Broken promise"))]>
              (shared_ c2)) c2)).
  { unfold erase, abandon, promise in *. by rewrite Hp2, Hwait. }
  split.
  { unfold sendRequest. rewrite Hc, Ha. cbn [negb]. rewrite Hsend, <- Hc2.
    by rewrite Hwait. }
  rewrite He.
  cbn [pending_requests_ set_pending_requests shared_ set_shared].
  split; [apply lookup_delete_eq|].
  split; [intros other Hne; by rewrite lookup_delete_ne|].
  split; [intros q Hne; by rewrite list_lookup_insert_ne|].
  intros late n Hid Hn. apply onMessage_unmatched with n; [done|].
  cbn. rewrite Hn. apply lookup_delete_eq.
Qed.

Lemma timed_out_call_is_removed_witness :
  let c := set_pending_requests {[ 7 := 0%nat ]}
             (set_shared [None] (set_next_request_id 8 (set_connected true init))) in
  exists c',
    sendRequest Scenario.mute "getVM" Json.object c
    = (Throw (runtime_error "Request timeout"), c')
    /\ pending_requests_ c' !! 8 = None
    /\ pending_requests_ c' !! 7 = Some 0%nat
    /\ shared_ c' !! 0%nat = Some None.
Proof.
  cbv zeta.
  set (c := set_pending_requests {[ 7 := 0%nat ]}
              (set_shared [None]
                 (set_next_request_id 8 (set_connected true init)))).
  destruct (fun Ha Hsend Hwait =>
              timed_out_call_is_removed Scenario.mute "getVM" Json.object
                c 8 1%nat (allocate c).2 _ eq_refl Ha Hsend eq_refl Hwait)
    as (c' & H1 & H2 & H3 & H4 & _);
    [vm_compute; reflexivity | reflexivity | vm_compute; reflexivity |].
  exists c'. split; [exact H1|]. split; [exact H2|]. split.
  - rewrite H3 by lia. reflexivity.
  - rewrite H4 by lia. reflexivity.
Defined.

End Client.

(** ** Discovery *)

Section Discovery.

Import InstanceDiscovery.
Implicit Types (env : environment) (inst : FlutterInstance).

Lemma sort_insert_Permutation inst (l : list FlutterInstance) :
  sort_insert by_port inst l ≡ₚ inst :: l.
Proof.
  induction l as [|y l IH]; [done|]. cbn.
  destruct (by_port inst y); [done|].
  rewrite IH. apply Permutation_swap.
Qed.

Lemma std_sort_Permutation (l : list FlutterInstance) : std_sort by_port l ≡ₚ l.
Proof.
  induction l as [|x l IH]; [done|]. cbn.
  by rewrite sort_insert_Permutation, IH.
Qed.

Lemma sort_insert_sorted inst (l : list FlutterInstance) :
  StronglySorted port_le l -> StronglySorted port_le (sort_insert by_port inst l).
Proof.
  induction l as [|y l IH]; intros Hs; cbn.
  - repeat constructor.
  - apply StronglySorted_inv in Hs as [Hs Hy].
    unfold by_port at 1. case_bool_decide as Hlt.
    + constructor; [by constructor|].
      constructor; [unfold port_le; lia|].
      eapply Forall_impl; [exact Hy|]. unfold port_le. intros z Hz. lia.
    + constructor; [by apply IH|].
      rewrite sort_insert_Permutation.
      constructor; [unfold port_le; lia|done].
Qed.

Lemma std_sort_sorted (l : list FlutterInstance) :
  StronglySorted port_le (std_sort by_port l).
Proof.
  induction l as [|x l IH]; cbn; [constructor|]. by apply sort_insert_sorted.
Qed.

(** An instance is returned for a port only when the validation passed. *)
Lemma probePort_Some env (p timeout_ms : Z) inst :
  probePort env p timeout_ms = Returns (Some inst) ->
  port inst = p /\ uri inst = ws_uri_of p
  /\ validateFlutterService (service env (ws_uri_of p) 0) (ws_uri_of p) = Returns true
  /\ http env "127.0.0.1" p timeout_ms <> "".
Proof.
  unfold probePort, httpGet. case_bool_decide; [done|].
  destruct (negb _ && negb _ && negb _); [done|].
  destruct (validateFlutterService _ _) as [[]|]; [|done..].
  cbn [mbind fate_bind negb].
  destruct (VMServiceClient.connect_thread _ _ _ _ _) as [ws_thread_|]; [|done].
  cbn [mbind fate_bind].
  destruct (VMServiceClient.connect _ _ _ _) as [[] vm_client].
  - destruct (VMServiceClient.callServiceMethod _ _ _ _) as [[vm_info|e] c].
    + destruct (value_string _ _ _);
        (destruct (VMServiceClient.destroy _ _); [|done]); by intros [= <-].
    + destruct (VMServiceClient.destroy _ _); [|done]. by intros [= <-].
  - destruct (VMServiceClient.destroy _ _); [|done]. by intros [= <-].
Qed.

Lemma full_uri_plain (u : string) : VMServiceClient.full_uri u "" = u.
Proof. reflexivity. Qed.

(** After a refused handshake [connect] reports the failure, and the
    client is destroyed with its thread unjoined. *)
Lemma validateFlutterService_refused (tr : transport) (u : string) :
  setup tr = None -> get_connection tr u = None -> handshake tr u = Refused ->
  VMServiceClient.connect tr u "" VMServiceClient.init
  = (false, VMServiceClient.set_ws_uri u VMServiceClient.init)
  /\ VMServiceClient.connect_thread tr u "" VMServiceClient.init false = Returns true
  /\ validateFlutterService tr u = Lost.
Proof.
  intros Hsetup Hcon Hrefused.
  assert (Hconnect : VMServiceClient.connect tr u "" VMServiceClient.init
                     = (false, VMServiceClient.set_ws_uri u VMServiceClient.init)).
  { unfold VMServiceClient.connect. rewrite full_uri_plain. cbn.
    by rewrite Hsetup, Hcon, Hrefused. }
  assert (Hthread : VMServiceClient.connect_thread tr u "" VMServiceClient.init false
                    = Returns true).
  { unfold VMServiceClient.connect_thread. rewrite full_uri_plain. cbn.
    by rewrite Hsetup, Hcon, Hrefused. }
  split; [done|]. split; [done|].
  unfold validateFlutterService. by rewrite Hthread, Hconnect.
Qed.

Lemma await_Lost {A : Type} (futures : list (fate A)) :
  Lost ∈ futures -> await futures = Lost.
Proof.
  induction futures as [|future rest IH]; [by intros ?%elem_of_nil|].
  intros [<- | Hin]%elem_of_cons; [done|].
  cbn. rewrite (IH Hin). by destruct future.
Qed.

Lemma await_Returns {A B : Type} (f : A -> fate B) (g : A -> B) (l : list A) :
  (forall x, x ∈ l -> f x = Returns (g x)) ->
  await (f <$> l) = Returns (g <$> l).
Proof.
  induction l as [|x l IH]; intros Hf; [done|].
  cbn. rewrite (Hf x) by left. cbn. rewrite IH; [done|].
  intros y Hy. apply Hf. by right.
Qed.

Lemma await_length {A : Type} (futures : list (fate A)) (results : list A) :
  await futures = Returns results -> length results = length futures.
Proof.
  revert results. induction futures as [|future rest IH]; intros results.
  - by intros [= <-].
  - cbn. destruct future as [result|]; [|done]. cbn.
    destruct (await rest) as [l|]; [|done]. cbn. intros [= <-]. cbn.
    by rewrite (IH l).
Qed.

Lemma launch_all_all env (ports : list Z) :
  (forall p, p ∈ ports -> launch env p = None) ->
  launch_all env ports = (ports, None).
Proof.
  induction ports as [|p ports IH]; intros Hl; [done|].
  cbn. rewrite (Hl p) by left. rewrite IH; [done|].
  intros q Hq. apply Hl. by right.
Qed.

Lemma launch_all_length env (ports : list Z) :
  (length (launch_all env ports).1 <= length ports)%nat.
Proof.
  induction ports as [|p ports IH]; [done|].
  cbn. destruct (launch env p); [cbn; lia|].
  destruct (launch_all env ports). cbn in *. lia.
Qed.

(** The probe of a port is started when the threads of the ports up to it
    could be. *)
Lemma launch_all_reaches env (p : Z) (k : nat) :
  forall a,
    a <= p < a + Z.of_nat k ->
    (forall q, a <= q <= p -> launch env q = None) ->
    p ∈ (launch_all env (seqZ a (Z.of_nat k))).1.
Proof.
  induction k as [|k IH]; intros a Hp Hl; [lia|].
  rewrite seqZ_cons by lia. cbn [launch_all].
  rewrite (Hl a) by lia.
  destruct (decide (p = a)) as [->|Hne].
  - destruct (launch_all env _). left.
  - specialize (IH (Z.succ a)).
    replace (Z.pred (Z.of_nat (S k))) with (Z.of_nat k) by lia.
    destruct (launch_all env _). cbn in *. right.
    apply IH; [lia|]. intros q Hq. apply Hl. lia.
Qed.

End Discovery.

(** C6.  The scan does not leave out silently a candidate whose WebSocket
    handshake is refused.  Take a port of the range whose page passes the
    check of the probe, the threads of the ports up to it having been
    started, and whose service refuses the handshake.  [connect] does report
    the failure, but its [disconnect] returns at its guard, so the thread
    of the event loop is never joined: when the client of the validation
    is destroyed the process ends, and with it the scan. *)
Theorem refused_handshake_ends_scan (env : environment)
    (port_range_start port_range_end timeout_ms p : Z)
    (Hrange : port_range_start <= p <= port_range_end)
    (Hlaunch : forall q, port_range_start <= q <= p -> launch env q = None)
    (Hpage : has_substring "Dart VM" (http env "127.0.0.1" p timeout_ms)
             || has_substring "Observatory" (http env "127.0.0.1" p timeout_ms)
             || has_substring "Flutter" (http env "127.0.0.1" p timeout_ms) = true)
    (Hsetup : setup (service env (InstanceDiscovery.ws_uri_of p) 0) = None)
    (Hconnection :
       get_connection (service env (InstanceDiscovery.ws_uri_of p) 0)
         (InstanceDiscovery.ws_uri_of p) = None)
    (Hrefused :
       handshake (service env (InstanceDiscovery.ws_uri_of p) 0)
         (InstanceDiscovery.ws_uri_of p) = Refused) :
  (VMServiceClient.connect (service env (InstanceDiscovery.ws_uri_of p) 0)
     (InstanceDiscovery.ws_uri_of p) "" VMServiceClient.init).1 = false
  /\ InstanceDiscovery.validateFlutterService
       (service env (InstanceDiscovery.ws_uri_of p) 0)
       (InstanceDiscovery.ws_uri_of p) = Lost
  /\ InstanceDiscovery.probePort env p timeout_ms = Lost
  /\ InstanceDiscovery.discoverInstances env port_range_start port_range_end
       timeout_ms = Lost.
Proof.
  destruct (validateFlutterService_refused _ _ Hsetup Hconnection Hrefused)
    as (Hconnect & _ & Hvalid).
  assert (Hprobe : InstanceDiscovery.probePort env p timeout_ms = Lost).
  { unfold InstanceDiscovery.probePort, InstanceDiscovery.httpGet.
    case_bool_decide as Hempty.
    { rewrite Hempty in Hpage. vm_compute in Hpage. discriminate Hpage. }
    destruct (has_substring "Dart VM" _), (has_substring "Observatory" _),
      (has_substring "Flutter" _); try discriminate Hpage; cbn [negb andb];
      by rewrite Hvalid. }
  split; [by rewrite Hconnect|]. split; [done|]. split; [done|].
  unfold InstanceDiscovery.discoverInstances.
  pose proof (launch_all_reaches env p
                (Z.to_nat (port_range_end - port_range_start + 1))
                port_range_start) as Hreach.
  rewrite Z2Nat.id in Hreach by lia.
  specialize (Hreach ltac:(lia) Hlaunch).
  destruct (InstanceDiscovery.launch_all env _) as [started failure]. cbn in Hreach.
  assert (Hlost : InstanceDiscovery.await
                    ((fun q => InstanceDiscovery.probePort env q timeout_ms) <$> started)
                  = Lost).
  { apply await_Lost. apply list_elem_of_fmap. by exists p. }
  rewrite Hlost. destruct failure; [done|]. by destruct (_ && _).
Qed.

Lemma refused_handshake_ends_scan_witness :
  InstanceDiscovery.discoverInstances Scenario.machine_with_web_server 8080 8085 500
  = Lost.
Proof.
  refine (proj2 (proj2 (proj2
    (refused_handshake_ends_scan Scenario.machine_with_web_server
       8080 8085 500 8085 _ _ _ _ _ _)))).
  - lia.
  - reflexivity.
  - vm_compute. reflexivity.
  - vm_compute. reflexivity.
  - vm_compute. reflexivity.
  - vm_compute. reflexivity.
Defined.

(** * Further properties of the code *)

(** ** The message model *)

Lemma to_int32_id (n : Z) : - 2 ^ 31 <= n < 2 ^ 31 -> to_int32 n = n.
Proof. unfold to_int32. intros H. rewrite Z.mod_small; lia. Qed.

Lemma to_int64_range (n : Z) : is_int64 (to_int64 n).
Proof.
  unfold is_int64, to_int64.
  pose proof (Z.mod_pos_bound (n + 2 ^ 63) (2 ^ 64)). lia.
Qed.

(** X1.  An Error whose code is a 32 bit integer is read back by
    [Error::fromJson] from what [Error::toJson] made of it, with or without
    data. *)
Theorem Error_fromJson_toJson (e : Error.t)
    (Hcode : - 2 ^ 31 <= Error.code e < 2 ^ 31) :
  Error.fromJson (Error.toJson e) = Ok e.
Proof.
  destruct e as [c m [d|]]; cbn in *; lookups; cbn; by rewrite to_int32_id.
Qed.

Lemma Error_fromJson_toJson_witness :
  Error.fromJson (Error.toJson (Error.fromCode MethodNotFound "" (Some (JString "tap"))))
  = Ok (Error.fromCode MethodNotFound "" (Some (JString "tap"))).
Proof. apply Error_fromJson_toJson. cbn. lia. Defined.

Lemma validateJsonRpc_request (j : json) (m : json) :
  validateJsonRpc j = Ok tt ->
  find j "method" = Some m ->
  is_string m = true
  /\ forall p, find j "params" = Some p -> is_object p || is_array p = true.
Proof.
  unfold validateJsonRpc. intros Hv Hm. rewrite Hm in Hv.
  destruct (negb (is_object j)); [discriminate|].
  destruct (negb _); [discriminate|].
  destruct (is_string m); [|discriminate]. split; [done|].
  intros p Hp. rewrite Hp in Hv. cbn in Hv.
  destruct (is_object p), (is_array p); cbn in *; done.
Qed.

Lemma at_Ok (j : json) (key : string) (v : json) :
  at_ j key = Ok v -> find j key = Some v.
Proof.
  destruct j; cbn; try discriminate.
  destruct (_ !! _); [by intros [= ->]|discriminate].
Qed.

(** What [Request::fromJson] returns when it returns. *)
Lemma Request_fromJson_Ok (j : json) (r : Request.t) :
  Request.fromJson j = Ok r ->
  Request.jsonrpc r = "2.0"
  /\ find j "method" = Some (JString (Request.method r))
  /\ Request.params r = default Json.object (find j "params")
  /\ is_object (Request.params r) || is_array (Request.params r) = true
  /\ wf_id (Request.id r).
Proof.
  unfold Request.fromJson. intros H.
  destruct (validateJsonRpc j) as [[]|] eqn:Hv; [|discriminate]. cbn in H.
  pose proof (validateJsonRpc_version j Hv) as Hver.
  assert (Hat : at_ j "jsonrpc" = Ok (JString "2.0")).
  { destruct j; try discriminate. cbn in *. by rewrite Hver. }
  rewrite Hat in H. cbn in H.
  destruct (at_ j "method") as [m|] eqn:Hm; [|discriminate]. cbn in H.
  assert (Hfm : find j "method" = Some m) by by apply at_Ok.
  destruct (validateJsonRpc_request j m Hv Hfm) as [Hs Hp].
  destruct m as [| | |ms| |]; try discriminate. cbn in H.
  destruct (find j "params") as [p|] eqn:Hfp;
    destruct (find j "id") as [[| |n|s| |]|]; cbn in H; try discriminate;
    injection H as <-; cbn; split_and!; try done;
    try apply to_int64_range; by apply Hp.
Qed.

(** X2.  A Request that [Request::fromJson] accepted has version "2.0",
    params that are an object or an array (the empty object when the
    message had none) and an id in the range of int64_t; serialising it
    and parsing it again gives the same Request. *)
Theorem parsed_request_is_stable (j : json) (r : Request.t)
    (Hparsed : Request.fromJson j = Ok r) :
  Request.jsonrpc r = "2.0"
  /\ Request.params r = default Json.object (find j "params")
  /\ is_object (Request.params r) || is_array (Request.params r) = true
  /\ wf_id (Request.id r)
  /\ Request.fromJson (Request.toJson r) = Ok r.
Proof.
  destruct (Request_fromJson_Ok j r Hparsed) as (Hv & _ & Hp & Hs & Hi).
  repeat split; try done.
  destruct r as [v m p i]. cbn in *. subst v.
  by apply Request_fromJson_toJson.
Qed.

Lemma parsed_request_is_stable_witness :
  let j := JObject (<["id" := JInt (2 ^ 64 - 1)]>
                   (<["method" := JString "ping"]> {[ "jsonrpc" := JString "2.0" ]})) in
  let r := Request.mk "2.0" "ping" Json.object (IdInt (-1)) in
  Request.fromJson j = Ok r /\ Request.fromJson (Request.toJson r) = Ok r.
Proof.
  cbv zeta.
  assert (H : Request.fromJson
                (JObject (<["id" := JInt (2 ^ 64 - 1)]>
                         (<["method" := JString "ping"]>
                         {[ "jsonrpc" := JString "2.0" ]})))
              = Ok (Request.mk "2.0" "ping" Json.object (IdInt (-1))))
    by (vm_compute; reflexivity).
  split; [exact H|].
  exact (proj2 (proj2 (proj2 (proj2 (parsed_request_is_stable _ _ H))))).
Defined.

(** ** The dispatcher *)

Section Dispatch.

Context {S : Type}.
Implicit Types (h : MessageHandler.t S) (handler : MessageHandler.MethodHandler S)
  (request : Request.t) (s : S).

Lemma handleRequest_lookup h request s :
  MessageHandler.handleRequest h request s
  = match MessageHandler.methods_ h !! Request.method request with
    | None =>
        (Response.errorResponse
           (Error.fromCode MethodNotFound
              ("Method '" +:+ Request.method request +:+ "' not found") None)
           (Request.id request), s)
    | Some handler =>
        match handler (Request.params request) s with
        | (Ok result, s') => (Response.success result (Request.id request), s')
        | (Throw e, s') =>
            (Response.errorResponse
               (Error.fromCode InternalError (what e) None)
               (Request.id request), s')
        end
    end.
Proof. reflexivity. Qed.

Lemma method_not_found_message (method : string) :
  Error.fromCode MethodNotFound ("Method '" +:+ method +:+ "' not found") None
  = Error.mk (-32601) ("Method '" +:+ method +:+ "' not found") None.
Proof.
  unfold Error.fromCode. case_bool_decide as He; [|done]. by vm_compute in He.
Qed.

(** X3.  A request is served by the handler registered last under its
    method name: what the handler returns becomes the result of a Response
    with the id of the request, and the handler's effects are kept. *)
Theorem registered_handler_serves h handler (earlier : MessageHandler.MethodHandler S)
    request s (result : json) (s' : S)
    (Hrun : handler (Request.params request) s = (Ok result, s')) :
  MessageHandler.handleRequest
    (MessageHandler.registerMethod
       (MessageHandler.registerMethod h (Request.method request) earlier)
       (Request.method request) handler)
    request s
  = ({| Response.jsonrpc := "2.0"; Response.result := Some result;
        Response.error := None; Response.id := Request.id request |}, s').
Proof.
  rewrite handleRequest_lookup. cbn [MessageHandler.registerMethod MessageHandler.methods_].
  unfold MessageHandler.MethodHandler, io in *.
  rewrite lookup_insert_eq. by rewrite Hrun.
Qed.

(** X4.  A request for a method that is not registered, or that has been
    unregistered, is answered with the MethodNotFound error naming the
    method, under the id of the request; no handler runs. *)
Theorem unregistered_method_not_found h request s :
  (MessageHandler.hasMethod h (Request.method request) = false ->
   MessageHandler.handleRequest h request s
   = (Response.errorResponse
        (Error.mk (-32601)
           ("Method '" +:+ Request.method request +:+ "' not found") None)
        (Request.id request), s))
  /\ MessageHandler.handleRequest
       (MessageHandler.unregisterMethod h (Request.method request)) request s
     = (Response.errorResponse
          (Error.mk (-32601)
             ("Method '" +:+ Request.method request +:+ "' not found") None)
          (Request.id request), s).
Proof.
  split.
  - unfold MessageHandler.hasMethod. rewrite handleRequest_lookup.
    unfold MessageHandler.MethodHandler, io in *.
    destruct (_ !! _); [done|]. by rewrite method_not_found_message.
  - rewrite handleRequest_lookup.
    cbn [MessageHandler.unregisterMethod MessageHandler.methods_].
    unfold MessageHandler.MethodHandler, io in *.
    rewrite lookup_delete_eq. by rewrite method_not_found_message.
Qed.


Lemma Response_toJson_members (r : Response.t) :
  find (Response.toJson r) "result" = Response.result r
  /\ find (Response.toJson r) "error" = Error.toJson <$> Response.error r
  /\ find (Response.toJson r) "id" = Some (id_toJson (Response.id r)).
Proof. destruct r as [v [r|] [e|] i]; cbn; by lookups. Qed.

(** X7.  Whatever becomes of a request (no handler for its method, a
    handler that throws, a handler that returns), the Response that
    [handleRequest] returns has, as a JSON value, exactly one of the
    members "result" and "error", the id of the request and the version
    "2.0". *)
Theorem response_has_result_xor_error h request s :
  let response := Response.toJson (MessageHandler.handleRequest h request s).1 in
  xorb (contains response "result") (contains response "error") = true
  /\ find response "id" = Some (id_toJson (Request.id request))
  /\ find response "jsonrpc" = Some (JString "2.0").
Proof.
  cbv zeta.
  destruct (Response_toJson_members (MessageHandler.handleRequest h request s).1)
    as (Hr & He & Hi).
  destruct (Response_toJson_version (MessageHandler.handleRequest h request s).1
              (handleRequest_version h request s)) as [Hv _].
  unfold contains. rewrite Hr, He, Hi, Hv. clear.
  rewrite handleRequest_lookup.
  destruct (_ !! _) as [handler|]; [destruct (handler _ _) as [[result|e] s']|];
    done.
Qed.

End Dispatch.

Lemma registered_handler_serves_witness :
  MessageHandler.handleRequest
    (MessageHandler.registerMethod
       (MessageHandler.registerMethod MessageHandler.init "echo"
          (fun _ => io_throw (runtime_error "old")))
       "echo" (fun p => io_ret p))
    (Request.mk "2.0" "echo" (JArray [JInt 1]) (IdString "a")) tt
  = (Response.mk "2.0" (Some (JArray [JInt 1])) None (IdString "a"), tt).
Proof.
  exact (registered_handler_serves MessageHandler.init (fun p => io_ret p)
           (fun _ => io_throw (runtime_error "old"))
           (Request.mk "2.0" "echo" (JArray [JInt 1]) (IdString "a"))
           tt (JArray [JInt 1]) tt eq_refl).
Defined.


(** ** The server *)

Section ServerProperties.

Context {W : Type} (dump : json -> Z -> outcome string).
Implicit Types (srv : Server.t W) (params : json).







Lemma handleRequest_json_handler (method : string) params (i : RequestId) srv
    (handler : MessageHandler.MethodHandler (Server.t W)) :
  MessageHandler.methods_ (Server.json_handler_ dump) !! method = Some handler ->
  MessageHandler.handleRequest (Server.json_handler_ dump)
    (Request.mk "2.0" method params i) srv
  = match handler params srv with
    | (Ok result, srv') => (Response.success result i, srv')
    | (Throw e, srv') =>
        (Response.errorResponse (Error.fromCode InternalError (what e) None) i, srv')
    end.
Proof.
  intros Hh. unfold MessageHandler.handleRequest.
  cbn [Request.method Request.params Request.id].
  unfold MessageHandler.MethodHandler, io in *. by rewrite Hh.
Qed.

Lemma json_handler_initialize :
  MessageHandler.methods_ (Server.json_handler_ dump) !! "initialize"
  = Some (Server.handleInitialize (W:=W)).
Proof. by rewrite json_handler_lookup. Qed.

Lemma json_handler_tools_call :
  MessageHandler.methods_ (Server.json_handler_ dump) !! "tools/call"
  = Some (Server.handleToolsCall (W:=W) dump).
Proof. by rewrite json_handler_lookup. Qed.

(** X9.  "initialize" succeeds on a server that is not initialized when
    the client info, if given, has a name and a version and the protocol
    version, if given, is a string: the reply names the protocol version of
    the server, the client info is stored and the server is initialized.
    Any "initialize" after that is answered with the InternalError
    "Server already initialized" and changes nothing. *)
Theorem initialize_succeeds_once params (i i2 : RequestId) (params2 : json) srv
    (info : option ClientInfo.t) (version : string)
    (Hfresh : Server.initialized_ srv = false)
    (Hinfo : ClientInfo.fromJson <$> find params "clientInfo" = Ok <$> info)
    (Hversion : value_string params "protocolVersion" MCP_VERSION = Ok version) :
  let srv' := Server.set_initialized true
                (from_option (fun c => Server.set_client_info c srv) srv info) in
  (exists result,
     MessageHandler.handleRequest (Server.json_handler_ dump)
       (Request.mk "2.0" "initialize" params i) srv
     = (Response.success result i, srv')
     /\ find result "protocolVersion" = Some (JString MCP_VERSION)
     /\ find result "serverInfo"
        = Some (ServerInfo.toJson (Server.server_info_ srv))
     /\ find result "capabilities"
        = Some (ServerCapabilities.toJson (Server.capabilities_ srv)))
  /\ MessageHandler.handleRequest (Server.json_handler_ dump)
       (Request.mk "2.0" "initialize" params2 i2) srv'
     = (Response.errorResponse
          (Error.mk (-32603) "Server already initialized" None) i2, srv').
Proof.
  cbv zeta. split.
  - rewrite (handleRequest_json_handler _ _ _ _ _ json_handler_initialize).
    unfold Server.handleInitialize, io_bind, io_get, io_lift, io_modify, io_ret.
    rewrite Hfresh.
    destruct (find params "clientInfo") as [ci|], info as [c|]; cbn in Hinfo;
      try discriminate.
    + injection Hinfo as ->. rewrite Hversion. cbn.
      eexists. split; [reflexivity|]. cbn. by lookups.
    + rewrite Hversion. cbn. eexists. split; [reflexivity|]. cbn. by lookups.
  - rewrite (handleRequest_json_handler _ _ _ _ _ json_handler_initialize).
    by rewrite handleInitialize_twice.
Qed.

(** X10.  "initialize" with params that are an array (which the envelope
    allows) fails with an InternalError: the server stays uninitialized and
    unchanged. *)
Theorem initialize_with_array_params_fails (items : list json) (i : RequestId) srv
    (Hfresh : Server.initialized_ srv = false) :
  validateJsonRpc (Request.toJson (Request.mk "2.0" "initialize" (JArray items) i))
  = Ok tt
  /\ exists e,
       MessageHandler.handleRequest (Server.json_handler_ dump)
         (Request.mk "2.0" "initialize" (JArray items) i) srv
       = (Response.errorResponse (Error.fromCode InternalError (what e) None) i, srv).
Proof.
  split.
  - unfold validateJsonRpc, Request.toJson. cbn. lookups. reflexivity.
  - rewrite (handleRequest_json_handler _ _ _ _ _ json_handler_initialize).
    unfold Server.handleInitialize, io_bind, io_get, io_lift.
    rewrite Hfresh. cbn. by eexists (json_exception _).
Qed.

(** X11.  On an initialized server "tools/call" first dumps the arguments
    given (the empty object when there are none) for the log: when that
    throws, the call fails with the message of the exception, before any
    tool is looked up.  Otherwise it runs the tool registered under the
    name given, with these arguments, on the state the tools share.  What
    the tool returns is wrapped as one text content holding its dump with
    indent 2; when that dump throws, or when the tool throws, the message
    of the exception becomes that of an InternalError; the effects of the
    tool are kept in all three cases.  A name under which no tool is
    registered gives the InternalError "Tool not found: <name>" and changes
    nothing. *)
Theorem tools_call_runs_named_tool params (i : RequestId) srv (tool_name : string)
    (Hinit : Server.initialized_ srv = true)
    (Hname : find params "name" = Some (JString tool_name)) :
  let arguments := default Json.object (find params "arguments") in
  let request := Request.mk "2.0" "tools/call" params i in
  let run := MessageHandler.handleRequest (Server.json_handler_ dump) request srv in
  (forall e,
     dump arguments (-1) = Throw e ->
     run = (Response.errorResponse (Error.fromCode InternalError (what e) None) i, srv))
  /\ (forall logged,
        dump arguments (-1) = Ok logged ->
        (Server.tools_ srv !! tool_name = None ->
         run = (Response.errorResponse
                  (Error.mk (-32603) ("Tool not found: " +:+ tool_name) None) i, srv))
        /\ (forall tool result w text,
              Server.tools_ srv !! tool_name = Some tool ->
              Tool.execute tool arguments (Server.world_ srv) = (Ok result, w) ->
              dump result 2 = Ok text ->
              run = (Response.success
                       (JObject {[ "content" :=
                          JArray [JObject (<["text" := JString text]>
                                          (<["type" := JString "text"]> ∅))] ]}) i,
                     Server.set_world w srv))
        /\ (forall tool result w e,
              Server.tools_ srv !! tool_name = Some tool ->
              Tool.execute tool arguments (Server.world_ srv) = (Ok result, w) ->
              dump result 2 = Throw e ->
              run = (Response.errorResponse
                       (Error.fromCode InternalError (what e) None) i,
                     Server.set_world w srv))
        /\ (forall tool e w,
              Server.tools_ srv !! tool_name = Some tool ->
              Tool.execute tool arguments (Server.world_ srv) = (Throw e, w) ->
              run = (Response.errorResponse
                       (Error.fromCode InternalError (what e) None) i,
                     Server.set_world w srv))).
Proof.
  cbv zeta.
  assert (Hobj : exists fields, params = JObject fields).
  { destruct params; try discriminate. eauto. }
  destruct Hobj as [fields ->]. cbn in Hname.
  rewrite (handleRequest_json_handler _ _ _ _ _ json_handler_tools_call).
  unfold Server.handleToolsCall, io_bind, io_get, io_lift, io_throw.
  rewrite Hinit. cbn. rewrite Hname. cbn.
  split; [by intros e ->|].
  intros logged ->. split_and!.
  - intros ->. unfold Error.fromCode. case_bool_decide as He; [|done].
    by vm_compute in He.
  - intros tool result w text -> Hrun Hdump. by rewrite Hrun, Hdump.
  - intros tool result w e -> Hrun Hdump. by rewrite Hrun, Hdump.
  - intros tool e w -> Hrun. by rewrite Hrun.
Qed.

(** X12.  A log message is sent as a notification: the frame has the
    method "notifications/message" and no id, its params carry the level
    and, as data, the data given or, when that is null, the message; read
    back by [Request::parse] it is a request without id.  The frame is
    handed to the transport when it can be dumped; when its dump throws,
    [sendLog] throws that exception and nothing is sent. *)
Theorem sendLog_is_notification (level : LogLevel) (message : string) (data : json)
    srv :
  exists fields request,
    fields !! "id" = None
    /\ fields !! "method" = Some (JString "notifications/message")
    /\ (fields !! "params" ≫= fun p => find p "data")
       = Some (if is_null data then JString message else data)
    /\ (fields !! "params" ≫= fun p => find p "level")
       = Some (JString (logLevelToString level))
    /\ Request.parse (Ok (JObject fields)) = Ok request
    /\ Request.hasId request = false
    /\ (forall text,
          dump (JObject fields) (-1) = Ok text ->
          Server.sendLog dump level message data srv
          = (Ok tt, Server.transport_send (JObject fields) srv))
    /\ (forall e,
          dump (JObject fields) (-1) = Throw e ->
          Server.sendLog dump level message data srv = (Throw e, srv)).
Proof.
  unfold Server.sendLog, Server.sendNotification, io_bind, io_lift, io_modify.
  set (p := JObject (if negb (is_null data) then _ else _)).
  assert (Hp : is_object p || is_array p = true) by done.
  pose proof (Request_fromJson_Notification "notifications/message" p Hp) as Hparse.
  destruct (params_shape p Hp) as [Hn _].
  unfold Notification.toJson, Notification.create in *.
  cbn [Notification.jsonrpc Notification.method Notification.params] in *.
  rewrite Hn in *. cbn [negb] in *.
  exists (<["params" := p]> (<["method" := JString "notifications/message"]>
           (<["jsonrpc" := JString "2.0"]> ∅))),
         (Request.mk "2.0" "notifications/message" p IdNull).
  lookups.
  split; [done|]. split; [done|]. cbn [mbind option_bind].
  split_and!.
  - subst p. destruct data; cbn; by lookups.
  - subst p. destruct data; cbn; by lookups.
  - unfold Request.parse. cbn [mbind outcome_bind]. by rewrite Hparse.
  - done.
  - by intros text ->.
  - by intros e ->.
Qed.

End ServerProperties.

Lemma initialize_succeeds_once_witness :
  let srv := Server.create (ServerInfo.mk "FlutterReflect" "1.0.0" None) tt in
  let params :=
    JObject (<["protocolVersion" := JString "2024-11-05"]>
            {[ "clientInfo" :=
                 JObject (<["version" := JString "0.1"]>
                         {[ "name" := JString "agent" ]}) ]}) in
  Server.initialized_
    (MessageHandler.handleRequest (Server.json_handler_ (fun _ _ => Ok ""))
       (Request.mk "2.0" "initialize" params (IdInt 1)) srv).2 = true.
Proof.
  cbv zeta.
  destruct (initialize_succeeds_once (fun _ _ => Ok "")
              (JObject (<["protocolVersion" := JString "2024-11-05"]>
                       {[ "clientInfo" :=
                            JObject (<["version" := JString "0.1"]>
                                    {[ "name" := JString "agent" ]}) ]}))
              (IdInt 1) (IdInt 2) Json.object
              (Server.create (ServerInfo.mk "FlutterReflect" "1.0.0" None) tt)
              (Some (ClientInfo.mk "agent" "0.1")) "2024-11-05")
    as [(result & Hrun & _) _];
    [reflexivity | reflexivity | reflexivity |].
  rewrite Hrun. reflexivity.
Defined.

Lemma initialize_with_array_params_fails_witness :
  exists e,
    MessageHandler.handleRequest (Server.json_handler_ (fun _ _ => Ok ""))
      (Request.mk "2.0" "initialize" (JArray []) (IdInt 1))
      (Server.create (ServerInfo.mk "FlutterReflect" "1.0.0" None) tt)
    = (Response.errorResponse (Error.fromCode InternalError (what e) None) (IdInt 1),
       Server.create (ServerInfo.mk "FlutterReflect" "1.0.0" None) tt).
Proof.
  exact (proj2 (initialize_with_array_params_fails (fun _ _ => Ok "") [] (IdInt 1)
                  (Server.create (ServerInfo.mk "FlutterReflect" "1.0.0" None) tt)
                  eq_refl)).
Defined.

Lemma tools_call_runs_named_tool_witness :
  let srv := Server.set_initialized true
               (Server.create (ServerInfo.mk "FlutterReflect" "1.0.0" None) tt) in
  MessageHandler.handleRequest (Server.json_handler_ (fun _ _ => Ok ""))
    (Request.mk "2.0" "tools/call" (JObject {[ "name" := JString "tap" ]}) (IdInt 4))
    srv
  = (Response.errorResponse (Error.mk (-32603) "Tool not found: tap" None) (IdInt 4),
     srv).
Proof.
  cbv zeta.
  refine (proj1 (proj2 (tools_call_runs_named_tool (fun _ _ => Ok "")
                          (JObject {[ "name" := JString "tap" ]}) (IdInt 4) _ "tap" _ _)
                   "" _) _);
    reflexivity.
Defined.

(** ** Frames, calls and the connection *)

Section Calls.

Import VMServiceClient.
Implicit Types (c : VMServiceClient.t) (p q : promise) (tr : transport).

Lemma link_kept_refl c : link_kept c c.
Proof. by repeat split. Qed.

Lemma link_kept_trans c1 c2 c3 : link_kept c1 c2 -> link_kept c2 c3 -> link_kept c1 c3.
Proof.
  intros (H1 & H2 & H3 & H4 & H5) (G1 & G2 & G3 & G4 & G5).
  repeat split; congruence.
Qed.

Lemma onMessage_fields (message : outcome json) c :
  link_kept c (onMessage message c)
  /\ next_request_id_ (onMessage message c) = next_request_id_ c
  /\ sent_ (onMessage message c) = sent_ c
  /\ length (shared_ (onMessage message c)) = length (shared_ c)
  /\ (forall request_id,
        pending_requests_ c !! request_id = None ->
        pending_requests_ (onMessage message c) !! request_id = None)
  /\ (forall e, message = Throw e -> onMessage message c = c).
Proof.
  assert (Hthrow : forall e, message = Throw e -> onMessage message c = c)
    by by intros e ->.
  revert Hthrow.
  destruct (onMessage_cases message c)
    as [E | [[event E] | (request_id' & q & r & Hq & Hs & E)]];
    rewrite E; intros Hthrow; cbn; split_and!; try done;
    try apply link_kept_refl.
  - by rewrite length_insert.
  - intros request_id Hn.
    destruct (decide (request_id' = request_id)) as [->|Hne];
      [apply lookup_delete_eq|by rewrite lookup_delete_ne].
Qed.

(** X13.  Handling a frame never touches the connection flags, the uri,
    the request counter or what was sent, never adds an entry to the
    pending table and never removes a promise state; text that is not
    JSON changes nothing at all. *)
Theorem onMessage_keeps_client (message : outcome json) c :
  link_kept c (onMessage message c)
  /\ next_request_id_ (onMessage message c) = next_request_id_ c
  /\ sent_ (onMessage message c) = sent_ c
  /\ length (shared_ (onMessage message c)) = length (shared_ c)
  /\ (forall request_id,
        pending_requests_ c !! request_id = None ->
        pending_requests_ (onMessage message c) !! request_id = None)
  /\ (forall e, message = Throw e -> onMessage message c = c).
Proof. apply onMessage_fields. Qed.

Lemma deliver_keeps (frames : list (outcome json)) c :
  link_kept c (deliver frames c)
  /\ next_request_id_ (deliver frames c) = next_request_id_ c
  /\ sent_ (deliver frames c) = sent_ c.
Proof.
  revert c. induction frames as [|f frames IH]; intros c; [by repeat split|].
  rewrite deliver_cons.
  destruct (IH (onMessage f c)) as (Hl & Hn & Hs).
  destruct (onMessage_fields f c) as (Hl' & Hn' & Hs' & _).
  split_and!; [by eapply link_kept_trans|congruence|congruence].
Qed.

Lemma erase_keeps (request_id : Z) c :
  link_kept c (erase request_id c)
  /\ next_request_id_ (erase request_id c) = next_request_id_ c
  /\ sent_ (erase request_id c) = sent_ c
  /\ pending_requests_ (erase request_id c) = delete request_id (pending_requests_ c).
Proof.
  unfold erase, abandon.
  destruct (pending_requests_ c !! request_id) as [p|] eqn:Hp.
  - destruct (shared_ c !! p) as [[?|]|]; by repeat split.
  - repeat split; try done. by rewrite delete_id.
Qed.

Lemma allocate_eq c :
  allocate c
  = (next_request_id_ c, length (shared_ c),
     (enlist (next_request_id_ c)
        (set_next_request_id (to_int64 (next_request_id_ c + 1)) c)).2).
Proof. reflexivity. Qed.

Lemma allocate_keeps c (request_id : Z) p c1 :
  allocate c = (request_id, p, c1) ->
  request_id = next_request_id_ c
  /\ link_kept c c1
  /\ next_request_id_ c1 = to_int64 (next_request_id_ c + 1)
  /\ sent_ c1 = sent_ c
  /\ pending_requests_ c1 = <[request_id := p]> (pending_requests_ c).
Proof.
  rewrite allocate_eq. intros [= <- <- <-].
  unfold enlist, abandon. cbn.
  repeat case_match; cbn; by split_and!.
Qed.

Lemma sendRequest_keeps tr (method : string) (params : json) c
    (Hc : connected_ c = true) :
  let c' := (sendRequest tr method params c).2 in
  next_request_id_ c' = to_int64 (next_request_id_ c + 1)
  /\ link_kept c c'
  /\ sent_ c'
     = sent_ c
       ++ match sending (wire tr (next_request_id_ c) method params) with
          | SendOk => [request_frame (next_request_id_ c) method params]
          | _ => []
          end
  /\ find (request_frame (next_request_id_ c) method params) "id"
     = Some (JInt (next_request_id_ c)).
Proof.
  cbv zeta. unfold sendRequest. rewrite Hc. cbn [negb].
  destruct (allocate c) as [[request_id p] c1] eqn:Ha.
  destruct (allocate_keeps c request_id p c1 Ha) as (-> & Hl & Hn & Hs & _).
  destruct (sending _) eqn:Hsend.
  - set (c2 := deliver _ _).
    destruct (deliver_keeps (inbound (wire tr (next_request_id_ c) method params))
                (set_sent (sent_ c1 ++ [request_frame (next_request_id_ c) method params])
                   c1)) as (Hl2 & Hn2 & Hs2).
    fold c2 in Hl2, Hn2, Hs2. cbn in Hn2, Hs2.
    assert (Hl12 : link_kept c c2).
    { eapply link_kept_trans; [exact Hl|]. exact Hl2. }
    destruct (shared_ c2 !! p) as [[r|]|]; cbn;
      try (destruct (erase_keeps (next_request_id_ c) c2) as (He1 & He2 & He3 & _));
      (split_and!; [congruence | try done; by eapply link_kept_trans
                   | congruence | by cbn; lookups]).
  - cbn.
    destruct (erase_keeps (next_request_id_ c) c1) as (He1 & He2 & He3 & _).
    destruct (erase_keeps (next_request_id_ c) (erase (next_request_id_ c) c1))
      as (Hf1 & Hf2 & Hf3 & _).
    split_and!; [congruence
                | eapply link_kept_trans; [exact Hl|]; by eapply link_kept_trans
                | rewrite app_nil_r; congruence | by cbn; lookups].
  - cbn.
    destruct (erase_keeps (next_request_id_ c) c1) as (He1 & He2 & He3 & _).
    split_and!; [congruence | by eapply link_kept_trans
                | rewrite app_nil_r; congruence | by cbn; lookups].
Qed.

(** X14.  A call on a connected client always takes the next request id:
    the counter moves on by one (wrapping at 64 bits) whether the call
    returns, fails or times out.  The connection flags and the uri are as
    before, and a request that was sent is the frame with that id, the
    method and the params, appended to what was sent. *)
Theorem sendRequest_takes_next_id tr (method : string) (params : json) c
    (Hc : connected_ c = true) :
  let c' := (sendRequest tr method params c).2 in
  next_request_id_ c' = to_int64 (next_request_id_ c + 1)
  /\ link_kept c c'
  /\ sent_ c'
     = sent_ c
       ++ match sending (wire tr (next_request_id_ c) method params) with
          | SendOk => [request_frame (next_request_id_ c) method params]
          | _ => []
          end
  /\ find (request_frame (next_request_id_ c) method params) "id"
     = Some (JInt (next_request_id_ c)).
Proof. by apply sendRequest_keeps. Qed.

Lemma sendRequest_takes_next_id_witness :
  next_request_id_
    (sendRequest Scenario.mute "getVM" Json.object (set_connected true init)).2 = 2.
Proof.
  exact (proj1 (sendRequest_takes_next_id Scenario.mute "getVM" Json.object
                  (set_connected true init) eq_refl)).
Defined.

Lemma sendRequest_link tr (method : string) (params : json) c :
  link_kept c (sendRequest tr method params c).2.
Proof.
  destruct (connected_ c) eqn:Hc.
  - by destruct (sendRequest_keeps tr method params c Hc) as (_ & Hl & _).
  - unfold sendRequest. rewrite Hc. apply link_kept_refl.
Qed.

Lemma deliver_never_adds (frames : list (outcome json)) c (request_id : Z) :
  pending_requests_ c !! request_id = None ->
  pending_requests_ (deliver frames c) !! request_id = None.
Proof.
  revert c. induction frames as [|f frames IH]; intros c Hn; [done|].
  rewrite deliver_cons. apply IH.
  by destruct (onMessage_fields f c) as (_ & _ & _ & _ & Hadd & _); apply Hadd.
Qed.

(** The frame that answers a pending call, as [onMessage] handles it. *)
Lemma onMessage_reply (frame : json) (n : Z) c p :
  find frame "id" = Some (JInt n) ->
  pending_requests_ c !! to_int64 n = Some p ->
  shared_ c !! p = Some None ->
  onMessage (Ok frame) c
  = match find frame "error" with
    | Some err =>
        match value_string err "message" "Unknown error" with
        | Ok error_msg =>
            set_pending_requests (delete (to_int64 n) (pending_requests_ c))
              (set_shared (<[p := Some (Throw (runtime_error error_msg))]> (shared_ c)) c)
        | Throw _ => c
        end
    | None =>
        set_pending_requests (delete (to_int64 n) (pending_requests_ c))
          (set_shared (<[p := Some (Ok (default JNull (find frame "result")))]>
                         (shared_ c)) c)
    end.
Proof.
  intros Hid Hp Hs. unfold onMessage. rewrite Hid. cbn [is_null negb get_int64].
  rewrite Hp. destruct (find frame "error") as [err|].
  - destruct (value_string _ _ _); [|done]. by rewrite satisfy_ok.
  - by rewrite satisfy_ok.
Qed.

(** A call whose answer is the first frame handled during its wait. *)
Lemma sendRequest_answered tr (method : string) (params : json) c (frame : json)
    (later : list (outcome json)) (r : outcome json) :
  connected_ c = true ->
  is_int64 (next_request_id_ c) ->
  pending_requests_ c !! next_request_id_ c = None ->
  wire tr (next_request_id_ c) method params = mk_exchange SendOk (Ok frame :: later) ->
  find frame "id" = Some (JInt (next_request_id_ c)) ->
  (forall c1 p,
     pending_requests_ c1 !! next_request_id_ c = Some p ->
     shared_ c1 !! p = Some None ->
     onMessage (Ok frame) c1
     = set_pending_requests (delete (next_request_id_ c) (pending_requests_ c1))
         (set_shared (<[p := Some r]> (shared_ c1)) c1)) ->
  exists c',
    sendRequest tr method params c = (r, c')
    /\ pending_requests_ c' !! next_request_id_ c = None.
Proof.
  intros Hc Hid Hfresh Hwire Hfid Hhandled.
  unfold sendRequest. rewrite Hc, allocate_eq. cbn [negb].
  rewrite Hwire. cbn [sending inbound]. rewrite deliver_cons.
  unfold enlist. cbn [pending_requests_ set_shared set_next_request_id].
  unfold promise in *. rewrite Hfresh.
  set (p := length (shared_ c)).
  set (c1 := set_sent _ _).
  assert (Hp1 : pending_requests_ c1 !! next_request_id_ c = Some p)
    by (subst c1; cbn; apply lookup_insert_eq).
  assert (Hs1 : shared_ c1 !! p = Some None).
  { subst c1 p. cbn. by rewrite lookup_app_r, Nat.sub_diag. }
  rewrite (Hhandled c1 p Hp1 Hs1).
  set (c2 := set_pending_requests _ _).
  assert (Hs2 : shared_ c2 !! p = Some (Some r)).
  { subst c2. cbn. apply list_lookup_insert_eq. by eapply lookup_lt_Some. }
  pose proof (deliver_resolved later c2 p r Hs2) as Hd.
  unfold promise in Hd. rewrite Hd.
  eexists. split; [reflexivity|].
  apply deliver_never_adds. subst c2. cbn. apply lookup_delete_eq.
Qed.

(** X15.  A call on a connected client whose id is not in the table, and
    whose answer is the first frame handled during its wait, returns the
    "result" of that frame (null when the frame has none) when the frame
    has no "error" member; the call is no longer in the table, whatever
    frames follow. *)
Theorem answered_call_returns_result tr (method : string) (params : json) c
    (frame : json) (later : list (outcome json))
    (Hc : connected_ c = true)
    (Hid : is_int64 (next_request_id_ c))
    (Hfresh : pending_requests_ c !! next_request_id_ c = None)
    (Hwire : wire tr (next_request_id_ c) method params
             = mk_exchange SendOk (Ok frame :: later))
    (Hfid : find frame "id" = Some (JInt (next_request_id_ c)))
    (Hok : find frame "error" = None) :
  exists c',
    sendRequest tr method params c = (Ok (default JNull (find frame "result")), c')
    /\ pending_requests_ c' !! next_request_id_ c = None.
Proof.
  apply (sendRequest_answered tr method params c frame later); try done.
  intros c1 p Hp Hs.
  rewrite (onMessage_reply frame (next_request_id_ c) c1 p Hfid);
    rewrite ?to_int64_id by done; try done.
  by rewrite Hok.
Qed.

(** X16.  When the first frame handled during the wait of such a call has
    an "error" member that is an object, the call throws a runtime error
    whose text is the "message" of that object, or "Unknown error" when the
    object has no "message"; the call is no longer in the table. *)
Theorem error_reply_fails_call tr (method : string) (params : json) c
    (frame : json) (later : list (outcome json)) (err : gmap string json)
    (error_msg : string)
    (Hc : connected_ c = true)
    (Hid : is_int64 (next_request_id_ c))
    (Hfresh : pending_requests_ c !! next_request_id_ c = None)
    (Hwire : wire tr (next_request_id_ c) method params
             = mk_exchange SendOk (Ok frame :: later))
    (Hfid : find frame "id" = Some (JInt (next_request_id_ c)))
    (Herr : find frame "error" = Some (JObject err))
    (Hmsg : err !! "message" = Some (JString error_msg)
            \/ (err !! "message" = None /\ error_msg = "Unknown error")) :
  exists c',
    sendRequest tr method params c = (Throw (runtime_error error_msg), c')
    /\ pending_requests_ c' !! next_request_id_ c = None.
Proof.
  apply (sendRequest_answered tr method params c frame later); try done.
  intros c1 p Hp Hs.
  rewrite (onMessage_reply frame (next_request_id_ c) c1 p Hfid);
    rewrite ?to_int64_id by done; try done.
  rewrite Herr. cbn. by destruct Hmsg as [-> | [-> ->]].
Qed.

(** X17.  A call on a client that is not connected throws "Not connected
    to VM Service" and changes nothing.  When the send fails, the call
    throws (an error code becomes "Failed to send request: <its message>"),
    its entry is gone from the table, the other entries are as before and
    nothing is recorded as sent. *)
Theorem failed_send_leaves_no_entry tr (method : string) (params : json) c :
  (connected_ c = false ->
   sendRequest tr method params c
   = (Throw (runtime_error "Not connected to VM Service"), c))
  /\ (connected_ c = true ->
      forall failure,
        match sending (wire tr (next_request_id_ c) method params) with
        | SendOk => False
        | SendError ec =>
            failure = runtime_error ("Failed to send request: " +:+ ec)
        | SendThrows e => failure = e
        end ->
        exists c',
          sendRequest tr method params c = (Throw failure, c')
          /\ pending_requests_ c' !! next_request_id_ c = None
          /\ (forall other, other <> next_request_id_ c ->
                pending_requests_ c' !! other = pending_requests_ c !! other)
          /\ sent_ c' = sent_ c).
Proof.
  split.
  - intros Hc. unfold sendRequest. by rewrite Hc.
  - intros Hc failure Hf. unfold sendRequest. rewrite Hc. cbn [negb].
    destruct (allocate c) as [[request_id p] c1] eqn:Ha.
    destruct (allocate_keeps c request_id p c1 Ha) as (-> & _ & _ & Hs & Hp).
    destruct (erase_keeps (next_request_id_ c) c1) as (_ & _ & He3 & He4).
    destruct (erase_keeps (next_request_id_ c) (erase (next_request_id_ c) c1))
      as (_ & _ & Hf3 & Hf4).
    destruct (sending _) as [|ec|e]; [done| |]; subst failure;
      eexists; (split; [reflexivity|]);
      rewrite ?Hf4, ?He4, ?Hf3, ?He3, Hp; split_and!; try done;
      try (by lookups); intros other Hne; by lookups.
Qed.

(** X18.  A frame that answers a pending call with an "error" member that
    is not an object, or whose "message" is not a string, changes nothing:
    the call stays in the table with its promise empty. *)
Theorem malformed_error_leaves_call_pending (frame : json) (n : Z) c p (err : json)
    (Hid : find frame "id" = Some (JInt n))
    (Hp : pending_requests_ c !! to_int64 n = Some p)
    (Hs : shared_ c !! p = Some None)
    (Herr : find frame "error" = Some err)
    (Hbad : is_object err = false
            \/ exists v, find err "message" = Some v /\ is_string v = false) :
  onMessage (Ok frame) c = c.
Proof.
  rewrite (onMessage_reply frame n c p Hid Hp Hs), Herr.
  destruct Hbad as [Hobj | (v & Hv & Hstr)].
  - by destruct err.
  - destruct err as [| | | | |fields]; try done. cbn in *. rewrite Hv.
    by destruct v.
Qed.

Lemma set_delivered_twice (l1 l2 : list json) c :
  set_delivered l2 (set_delivered l1 c) = set_delivered l2 c.
Proof. reflexivity. Qed.

(** X19.  Frames without id (or with a null id) whose method is
    "streamNotify" are handed to the event callback in the order of their
    arrival, each with its "params" (null when it has none), and change
    nothing else; without a callback they are dropped. *)
Theorem events_are_delivered_in_order (frames : list json) c
    (Hevents : Forall (fun f =>
                 (find f "id" = None \/ find f "id" = Some JNull)
                 /\ find f "method" = Some (JString "streamNotify")) frames) :
  deliver (Ok <$> frames) c
  = if event_callback_ c then
      set_delivered
        (delivered_ c ++ ((fun f => default JNull (find f "params")) <$> frames)) c
    else c.
Proof.
  revert c. induction Hevents as [|f frames [Hid Hm] _ IH]; intros c.
  - cbn. rewrite app_nil_r. by destruct c as [? ? ? ? ? ? ? []].
  - rewrite fmap_cons, deliver_cons.
    assert (E : onMessage (Ok f) c
                = if event_callback_ c
                  then set_delivered (delivered_ c ++ [default JNull (find f "params")]) c
                  else c).
    { unfold onMessage. destruct Hid as [-> | ->]; cbn; rewrite Hm; cbn;
        by destruct (event_callback_ c). }
    rewrite E, IH. destruct (event_callback_ c) eqn:Hcb; cbn; rewrite ?Hcb; [|done].
    by rewrite <- app_assoc.
Qed.

End Calls.

Lemma answered_call_returns_result_witness :
  exists c',
    VMServiceClient.sendRequest (Scenario.answering Scenario.vm) "getVM" Json.object
      (VMServiceClient.set_connected true VMServiceClient.init)
    = (Ok Scenario.vm, c')
    /\ VMServiceClient.pending_requests_ c' !! 1 = None.
Proof.
  refine (answered_call_returns_result (Scenario.answering Scenario.vm) "getVM"
            Json.object (VMServiceClient.set_connected true VMServiceClient.init)
            (JObject (<["result" := Scenario.vm]>
                     (<["id" := JInt 1]> {[ "jsonrpc" := JString "2.0" ]})))
            [] _ _ _ _ _ _); try reflexivity.
  unfold is_int64. cbn. lia.
Defined.

Lemma error_reply_fails_call_witness :
  let tr := mk_transport None (fun _ => None) (fun _ => Opened)
              (fun request_id _ _ =>
                 mk_exchange SendOk
                   [Ok (JObject (<["error" := JObject {[ "code" := JInt (-32601) ]}]>
                                {[ "id" := JInt request_id ]}))]) in
  exists c',
    VMServiceClient.sendRequest tr "getVM" Json.object
      (VMServiceClient.set_connected true VMServiceClient.init)
    = (Throw (runtime_error "Unknown error"), c')
    /\ VMServiceClient.pending_requests_ c' !! 1 = None.
Proof.
  cbv zeta.
  refine (error_reply_fails_call _ "getVM" Json.object
            (VMServiceClient.set_connected true VMServiceClient.init)
            (JObject (<["error" := JObject {[ "code" := JInt (-32601) ]}]>
                     {[ "id" := JInt 1 ]}))
            [] {[ "code" := JInt (-32601) ]} "Unknown error" _ _ _ _ _ _ _);
    try reflexivity.
  - unfold is_int64. cbn. lia.
  - right. split; reflexivity.
Defined.

Lemma malformed_error_leaves_call_pending_witness :
  let c := VMServiceClient.set_pending_requests {[ 5 := 0%nat ]}
             (VMServiceClient.set_shared [None]
                (VMServiceClient.set_connected true VMServiceClient.init)) in
  VMServiceClient.onMessage
    (Ok (JObject (<["error" := JString "boom"]> {[ "id" := JInt 5 ]}))) c = c.
Proof.
  cbv zeta.
  refine (malformed_error_leaves_call_pending _ 5 _ 0%nat (JString "boom")
            _ _ _ _ _); try reflexivity.
  left. reflexivity.
Defined.

Lemma events_are_delivered_in_order_witness :
  VMServiceClient.delivered_
    (VMServiceClient.deliver
       (Ok <$>
        [JObject (<["params" := JInt 1]> {[ "method" := JString "streamNotify" ]});
         JObject (<["params" := JInt 2]> {[ "method" := JString "streamNotify" ]});
         JObject (<["params" := JInt 3]> {[ "method" := JString "streamNotify" ]})])
       (VMServiceClient.setEventCallback true VMServiceClient.init))
  = [JInt 1; JInt 2; JInt 3].
Proof.
  rewrite events_are_delivered_in_order.
  - reflexivity.
  - repeat (constructor; [split; [left; reflexivity|reflexivity]|]).
    constructor.
Defined.

(** ** Connecting *)

Section Connecting.

Import VMServiceClient.
Implicit Types (c : VMServiceClient.t) (tr : transport).

Lemma io_bind_link {A B : Type} (m : io VMServiceClient.t A)
    (f : A -> io VMServiceClient.t B) c :
  (forall c0, link_kept c0 (m c0).2) ->
  (forall a c0, link_kept c0 (f a c0).2) ->
  link_kept c (io_bind m f c).2.
Proof.
  intros Hm Hf. unfold io_bind. pose proof (Hm c) as H.
  destruct (m c) as [[a|e] c1]; cbn in *; [|done].
  eapply link_kept_trans; [exact H|apply Hf].
Qed.

Lemma io_lift_link {A : Type} (o : outcome A) c :
  link_kept c (io_lift (S:=VMServiceClient.t) o c).2.
Proof. apply link_kept_refl. Qed.

Lemma find_main_link tr (isolates : list json) c :
  link_kept c (find_main tr isolates c).2.
Proof.
  revert c. induction isolates as [|isolate_ref rest IH]; intros c;
    [apply link_kept_refl|].
  cbn [find_main]. apply io_bind_link; [intros; apply io_lift_link|].
  intros isolate_id c0. apply io_bind_link; [intros; apply sendRequest_link|].
  intros isolate c1. apply io_bind_link; [intros; apply io_lift_link|].
  intros name c2. destruct (has_substring "main" name); [apply link_kept_refl|apply IH].
Qed.

Lemma getMainIsolateId_link tr c : link_kept c (getMainIsolateId tr c).2.
Proof.
  unfold getMainIsolateId. apply io_bind_link; [intros; apply sendRequest_link|].
  intros vm_info c0. destruct (find vm_info "isolates") as [isolates|];
    [|apply link_kept_refl].
  apply io_bind_link; [intros; apply find_main_link|].
  intros [isolate_id|] c1; [apply link_kept_refl|].
  destruct (negb _); [|apply link_kept_refl].
  destruct isolates as [| | | |[|first ?]|]; apply link_kept_refl.
Qed.

Lemma foldl_fail_promise_uri (l : list promise) c :
  ws_uri_ (foldl fail_promise c l) = ws_uri_ c.
Proof.
  revert c. induction l as [|p l IH]; intros c; [done|].
  cbn. rewrite IH. unfold fail_promise, satisfy.
  by destruct (shared_ c !! p) as [[?|]|].
Qed.

(** After [disconnect] the client is not connected, whatever it was, and
    still remembers its uri. *)
Lemma disconnect_result c :
  connected_ (disconnect c) = false /\ ws_uri_ (disconnect c) = ws_uri_ c.
Proof.
  destruct (connected_ c) eqn:Hc.
  - rewrite (disconnect_active c) by auto. cbn. unfold fail_all.
    rewrite foldl_fail_promise_uri.
    by destruct (foldl_fail_promise_fields
                   (map_to_list (pending_requests_
                                   (set_running false (set_connected false c)))).*2
                   (set_running false (set_connected false c))) as (_ & -> & _).
  - destruct (running_ c) eqn:Hr.
    + rewrite (disconnect_active c) by auto. cbn. unfold fail_all.
      rewrite foldl_fail_promise_uri.
      by destruct (foldl_fail_promise_fields
                     (map_to_list (pending_requests_
                                     (set_running false (set_connected false c)))).*2
                     (set_running false (set_connected false c))) as (_ & -> & _).
    + by rewrite disconnect_idle.
Qed.

Lemma connect_result tr (uri auth_token : string) c :
  (connect tr uri auth_token c).1 = connected_ (connect tr uri auth_token c).2
  /\ (connected_ c = false -> (connect tr uri auth_token c).1 = true ->
      ws_uri_ (connect tr uri auth_token c).2 = uri).
Proof.
  unfold connect. destruct (connected_ c) eqn:Hc; [done|].
  destruct (setup tr); cbn [fst snd];
    [by destruct (disconnect_result c) as [-> _]|].
  destruct (get_connection tr _); cbn [fst snd]; [done|].
  destruct (handshake tr _); cbn [fst snd].
  - pose proof (getMainIsolateId_link tr (onOpen (set_running true (set_ws_uri uri c))))
      as (H1 & _ & H3 & _).
    destruct (getMainIsolateId tr _) as [[isolate_id|e] c3]; cbn in *.
    + by rewrite H1, H3.
    + by destruct (disconnect_result c3) as [-> _].
  - by destruct (disconnect_result
                   (set_running false (onFail (set_running true (set_ws_uri uri c)))))
      as [-> _].
  - by destruct (disconnect_result (set_running true (set_ws_uri uri c)))
      as [-> _].
Qed.

(** X20.  [connect] returns true exactly when it leaves the client
    connected: after a failed attempt (setup, connection creation, open
    timeout, refusal, or a failure while looking for the main isolate) the
    client is not connected.  A successful attempt on a client that was not
    connected leaves it with the uri asked for. *)
Theorem connect_reports_connection_state tr (uri auth_token : string) c :
  (connect tr uri auth_token c).1 = connected_ (connect tr uri auth_token c).2
  /\ (connected_ c = false -> (connect tr uri auth_token c).1 = true ->
      getUri (connect tr uri auth_token c).2 = uri).
Proof. apply connect_result. Qed.

End Connecting.

(** ** The tools that share the client *)

Section SharedClient.

Implicit Types (g : ConnectTool.client) (net : string -> transport).

(** X21.  [ensureConnection] returns true exactly when the shared client
    is connected afterwards.  With an empty uri nothing is touched; with a
    uri, success means the shared client is connected to that uri: a
    client connected elsewhere is disconnected first, one connected to the
    uri already is kept as it is. *)
Theorem ensureConnection_result net (uri auth_token : string) g :
  (ConnectTool.ensureConnection net uri auth_token g).1
  = ConnectTool.isConnected (ConnectTool.ensureConnection net uri auth_token g).2
  /\ (uri = "" -> (ConnectTool.ensureConnection net uri auth_token g).2 = g)
  /\ (uri <> "" -> (ConnectTool.ensureConnection net uri auth_token g).1 = true ->
      exists c,
        (ConnectTool.ensureConnection net uri auth_token g).2 = Some c
        /\ VMServiceClient.getUri c = uri)
  /\ (forall c,
        g = Some c -> VMServiceClient.isConnected c = true ->
        VMServiceClient.getUri c = uri -> uri <> "" ->
        ConnectTool.ensureConnection net uri auth_token g = (true, g)).
Proof.
  unfold ConnectTool.ensureConnection.
  case_bool_decide as Hu; [by split_and!|].
  set (c0 := match g with Some c => c | None => VMServiceClient.init end).
  destruct (VMServiceClient.isConnected c0) eqn:Hc0; cbn [andb].
  - case_bool_decide as Hsame; cbn.
    + split_and!; try done.
      * intros _ _. by exists c0.
      * intros c -> _ _ _. done.
    + set (c1 := VMServiceClient.disconnect c0).
      destruct (disconnect_result c0) as [Hd _]. fold c1 in Hd.
      destruct (connect_result (net uri) uri auth_token c1) as [Hr Huri].
      destruct (VMServiceClient.connect (net uri) uri auth_token c1) as [ok c2].
      cbn in *. split_and!; try done.
      * intros _ ->. exists c2. split; [done|]. by apply Huri.
      * intros c -> Hc Hu' _. subst c0. congruence.
  - destruct (connect_result (net uri) uri auth_token c0) as [Hr Huri].
    destruct (VMServiceClient.connect (net uri) uri auth_token c0) as [ok c2].
    cbn in *. split_and!; try done.
    + intros _ ->. exists c2. split; [done|]. by apply Huri.
    + intros c -> Hc. subst c0. unfold VMServiceClient.isConnected in *. congruence.
Qed.

(** X22.  The disconnect tool reports an error and changes nothing when
    the shared client is missing or not connected.  Otherwise it reports
    success with the uri the client was connected to, and afterwards the
    client is not connected, has no pending call and still answers that
    uri to [getUri]. *)
Theorem disconnect_tool_result (arguments : json) g :
  (ConnectTool.isConnected g = false ->
   (ConnectTool.disconnect_execute arguments g).2 = g
   /\ find (ConnectTool.disconnect_execute arguments g).1 "success"
      = Some (JBool false))
  /\ (forall c,
        g = Some c -> VMServiceClient.isConnected c = true ->
        exists c',
          (ConnectTool.disconnect_execute arguments g).2 = Some c'
          /\ VMServiceClient.isConnected c' = false
          /\ VMServiceClient.pending_requests_ c' = ∅
          /\ VMServiceClient.getUri c' = VMServiceClient.getUri c
          /\ find (ConnectTool.disconnect_execute arguments g).1 "success"
             = Some (JBool true)
          /\ (find (ConnectTool.disconnect_execute arguments g).1 "data"
                ≫= fun d => find d "previous_uri")
             = Some (JString (VMServiceClient.getUri c))).
Proof.
  unfold ConnectTool.disconnect_execute, ConnectTool.isConnected. split.
  - destruct g as [c|]; [|by split]. by intros ->.
  - intros c -> Hc. rewrite Hc.
    exists (VMServiceClient.disconnect c). cbn [fst snd].
    destruct (disconnect_result c) as [Hd Hu].
    split_and!; try done.
    unfold VMServiceClient.isConnected in Hc.
    rewrite (disconnect_active c) by auto. reflexivity.
Qed.

End SharedClient.

(** ** More on discovery *)

Section Scan.

Import InstanceDiscovery.
Implicit Types (env : environment) (inst : FlutterInstance).

Lemma seqZ_sorted (m n : Z) : StronglySorted Z.lt (seqZ m n).
Proof.
  remember (Z.to_nat n) as k eqn:Hk. revert m n Hk.
  induction k as [|k IH]; intros m n Hk.
  - destruct (seqZ m n) eqn:E; [constructor|].
    apply (f_equal length) in E. rewrite length_seqZ in E. cbn in E. lia.
  - rewrite seqZ_cons by lia. constructor.
    + apply IH. lia.
    + apply Forall_forall. intros x Hx%elem_of_seqZ. lia.
Qed.

Lemma probes_sorted env (timeout_ms : Z) (results : Z -> option FlutterInstance)
    (ports : list Z) :
  (forall p, p ∈ ports -> probePort env p timeout_ms = Returns (results p)) ->
  StronglySorted Z.lt ports ->
  StronglySorted (fun a b => port a < port b) (omap results ports)
  /\ port <$> omap results ports `sublist_of` ports.
Proof.
  intros Hprobes.
  induction 1 as [|p ports Hs IH Hall]; [split; constructor|].
  destruct IH as [IH1 IH2]; [intros q Hq; apply Hprobes; by right|].
  cbn. destruct (results p) as [inst|] eqn:Hp; cbn.
  - assert (Hport : port inst = p).
    { eapply probePort_Some. rewrite Hprobes by left. by rewrite Hp. }
    split; [|rewrite Hport; by apply sublist_skip].
    constructor; [done|].
    apply Forall_forall. intros other Ho.
    assert (Hin : port other ∈ ports).
    { eapply elem_of_sublist; [|exact IH2]. by apply list_elem_of_fmap_2. }
    rewrite Forall_forall in Hall. specialize (Hall _ Hin). lia.
  - split; [done|by apply sublist_cons].
Qed.

Lemma std_sort_sorted_input (l : list FlutterInstance) :
  StronglySorted (fun a b => port a < port b) l -> std_sort by_port l = l.
Proof.
  induction 1 as [|x l Hs IH Hall]; [done|].
  change (std_sort by_port (x :: l)) with (sort_insert by_port x (std_sort by_port l)).
  rewrite IH. destruct l as [|y l]; [done|].
  cbn [sort_insert]. unfold by_port at 1. apply Forall_inv in Hall.
  by rewrite bool_decide_eq_true_2.
Qed.

Lemma omap_length_le {A B : Type} (f : A -> option B) (l : list A) :
  (length (omap f l) <= length l)%nat.
Proof.
  induction l as [|x l IH]; [done|]. cbn. destruct (f x); cbn; lia.
Qed.

Lemma omap_id_fmap {A B : Type} (g : A -> option B) (l : list A) :
  omap id (g <$> l) = omap g l.
Proof.
  induction l as [|x l IH]; [done|]. cbn. rewrite IH. by destruct (g x).
Qed.

(** A scan that comes back with a list has found at most one instance for
    each port of the range. *)
Lemma discoverInstances_length env (port_range_start port_range_end timeout_ms : Z)
    (found : list FlutterInstance) :
  discoverInstances env port_range_start port_range_end timeout_ms
  = Returns (Ok found) ->
  Z.of_nat (length found) <= Z.max 0 (port_range_end - port_range_start + 1).
Proof.
  unfold discoverInstances.
  pose proof (launch_all_length env
                (seqZ port_range_start (port_range_end - port_range_start + 1)))
    as Hstarted.
  rewrite length_seqZ in Hstarted.
  destruct (launch_all env _) as [started [e|]]; cbn [fst] in Hstarted.
  { by destruct (await _). }
  destruct (_ && _); [done|].
  destruct (await _) as [futures|] eqn:Hawait; [|done].
  cbn. intros [= <-].
  apply await_length in Hawait. rewrite length_fmap in Hawait.
  rewrite std_sort_Permutation.
  pose proof (omap_length_le id futures). lia.
Qed.

(** X23.  Take a range of ports that the [int] counter of the scan walks
    through without overflow, the thread of every probe having been
    started and every probe having come back.  The probes come back in
    the order of the ports, so the sort at the end of the scan leaves the
    list as it is: the scan returns the instances the probes returned, in
    port order, and leaves out the ports whose probe returned none.  The
    ports of the result are a sublist of the range (strictly ascending,
    none twice), there are at most as many instances as ports, and an
    empty range gives no instance. *)
Theorem scan_is_in_port_order env (port_range_start port_range_end timeout_ms : Z)
    (results : Z -> option FlutterInstance)
    (Hstart : - 2 ^ 31 <= port_range_start)
    (Hend : port_range_end < 2 ^ 31 - 1)
    (Hlaunch : forall p,
       port_range_start <= p <= port_range_end -> launch env p = None)
    (Hprobes : forall p,
       port_range_start <= p <= port_range_end ->
       probePort env p timeout_ms = Returns (results p)) :
  let ports := seqZ port_range_start (port_range_end - port_range_start + 1) in
  let found := omap results ports in
  discoverInstances env port_range_start port_range_end timeout_ms
  = Returns (Ok found)
  /\ port <$> found `sublist_of` ports
  /\ StronglySorted (fun a b => port a < port b) found
  /\ (Z.of_nat (length found) <= Z.max 0 (port_range_end - port_range_start + 1))
  /\ (port_range_end < port_range_start -> found = []).
Proof.
  cbv zeta.
  set (ports := seqZ port_range_start (port_range_end - port_range_start + 1)).
  assert (Hin : forall p, p ∈ ports -> port_range_start <= p <= port_range_end).
  { intros p Hp%elem_of_seqZ. lia. }
  destruct (probes_sorted env timeout_ms results ports) as [Hsorted Hsub];
    [by intros p Hp%Hin; apply Hprobes | apply seqZ_sorted |].
  assert (E : discoverInstances env port_range_start port_range_end timeout_ms
              = Returns (Ok (omap results ports))).
  { unfold discoverInstances. fold ports.
    rewrite launch_all_all by (by intros p Hp%Hin; apply Hlaunch).
    rewrite (bool_decide_eq_false_2 (port_range_end = 2 ^ 31 - 1)) by lia.
    rewrite andb_false_r.
    rewrite (await_Returns _ results) by (by intros p Hp%Hin; apply Hprobes).
    cbn. rewrite omap_id_fmap. by rewrite std_sort_sorted_input. }
  split_and!; try done.
  - apply sublist_length in Hsub. rewrite length_fmap in Hsub.
    subst ports. rewrite length_seqZ in Hsub. lia.
  - intros Hlt. subst ports. destruct (seqZ _ _) eqn:Hseq; [done|].
    apply (f_equal length) in Hseq. rewrite length_seqZ in Hseq. cbn in Hseq. lia.
Qed.

Lemma extractProjectName_nonempty (vm_info : json) : extractProjectName vm_info <> "".
Proof.
  unfold extractProjectName.
  repeat (case_match; try done; try (case_bool_decide; cbn in *; try done)).
Qed.

Lemma extractDeviceType_values (vm_info : json) :
  extractDeviceType vm_info
  ∈ ["Windows"; "Linux"; "macOS"; "Chrome"; "Web"; "Unknown"].
Proof.
  unfold extractDeviceType. repeat case_match; set_solver.
Qed.

(** X24.  An instance returned by a probe has the port probed, the uri
    "ws://127.0.0.1:<port>/ws", no authentication, the time of the clock
    and one of the six device names.  Its project name is never empty when
    the second connection of the probe opened: it is the name found in the
    VM info or "Unknown". *)
Theorem probe_instance_shape env (p timeout_ms : Z) inst
    (Hprobe : probePort env p timeout_ms = Returns (Some inst)) :
  port inst = p
  /\ uri inst = "ws://127.0.0.1:" +:+ pretty p +:+ "/ws"
  /\ has_auth inst = false /\ auth_token inst = ""
  /\ discovered_at inst = clock env p
  /\ device inst ∈ ["Windows"; "Linux"; "macOS"; "Chrome"; "Web"; "Unknown"]
  /\ (forall c,
        VMServiceClient.connect (service env (ws_uri_of p) 1) (ws_uri_of p) ""
          VMServiceClient.init = (true, c) ->
        project_name inst <> "").
Proof.
  revert Hprobe. unfold probePort. case_bool_decide; [done|].
  destruct (negb _ && negb _ && negb _); [done|].
  destruct (validateFlutterService _ _) as [[]|]; [|done..].
  cbn [mbind fate_bind negb].
  destruct (VMServiceClient.connect_thread _ _ _ _ _) as [ws_thread_|]; [|done].
  cbn [mbind fate_bind].
  destruct (VMServiceClient.connect _ _ _ _) as [[] vm_client].
  - destruct (VMServiceClient.callServiceMethod _ _ _ _) as [[vm_info|e] c0].
    + destruct (value_string _ _ _);
        (destruct (VMServiceClient.destroy _ _); [|done]);
        intros [= <-]; cbn; split_and!; try done;
        try set_solver; try apply extractDeviceType_values.
      intros _ _. apply extractProjectName_nonempty.
    + destruct (VMServiceClient.destroy _ _); [|done].
      intros [= <-]; cbn; split_and!; try done; set_solver.
  - destruct (VMServiceClient.destroy _ _); [|done].
    intros [= <-]; cbn; split_and!; try done; set_solver.
Qed.

Lemma scan_is_in_port_order_witness :
  exists found,
    discoverInstances Scenario.machine 8080 8084 500 = Returns (Ok found)
    /\ port <$> found = [8081; 8084].
Proof.
  eexists. split.
  - refine (proj1 (scan_is_in_port_order Scenario.machine 8080 8084 500
                     (fun p => match probePort Scenario.machine p 500 with
                               | Returns result => result
                               | Lost => None
                               end) _ _ _ _)).
    + lia.
    + lia.
    + reflexivity.
    + intros p Hp.
      assert (Hcases : p = 8080 \/ p = 8081 \/ p = 8082 \/ p = 8083 \/ p = 8084)
        by lia.
      destruct Hcases as [-> | [-> | [-> | [-> | ->]]]]; vm_compute; reflexivity.
  - vm_compute. reflexivity.
Defined.

Lemma probe_instance_shape_witness :
  exists inst,
    probePort Scenario.machine 8081 500 = Returns (Some inst)
    /\ uri inst = "ws://127.0.0.1:8081/ws"
    /\ project_name inst = "counter_app".
Proof.
  assert (H : probePort Scenario.machine 8081 500
              = Returns
                  (Some (mk_FlutterInstance "ws://127.0.0.1:8081/ws" 8081
                           "counter_app" "Unknown" "3.2.0" false "" 1700008081)))
    by (vm_compute; reflexivity).
  eexists. split; [exact H|].
  destruct (probe_instance_shape _ _ _ _ H) as (_ & Hu & _).
  split; [exact Hu|reflexivity].
Defined.

End Scan.

(** ** The tool that lists instances *)

Section ListInstances.

Implicit Types (env : environment) (arguments : json).

Lemma createErrorResponse_members (error : string) :
  find (ToolBase.createErrorResponse error JNull) "success" = Some (JBool false)
  /\ find (ToolBase.createErrorResponse error JNull) "error" = Some (JString error)
  /\ find (ToolBase.createErrorResponse error JNull) "data" = None.
Proof. cbn. by lookups. Qed.

Lemma createSuccessResponse_members (data : json) (message : string) :
  find (ToolBase.createSuccessResponse data message) "success" = Some (JBool true)
  /\ find (ToolBase.createSuccessResponse data message) "data" = Some data.
Proof.
  unfold ToolBase.createSuccessResponse. destruct (negb _); cbn; by lookups.
Qed.

(** X25.  The list tool scans only when the three parameters (the members
    of the arguments when they are integers, 8080, 8200 and 500 otherwise)
    satisfy 1024 <= port_start <= port_end <= 65535 and
    100 <= timeout_ms <= 5000; otherwise it answers with success false, an
    error text and no data.  When the scan returns a list it answers with
    success true, the instances found, in scan order, and their number as
    count.  When the scan throws it answers with success false and the
    message of the exception in the error text.  When the scan does not
    come back, neither does the tool. *)
Theorem list_tool_validates_then_scans env arguments :
  let port_start := ToolBase.getParamOr get_int arguments "port_start" 8080 in
  let port_end := ToolBase.getParamOr get_int arguments "port_end" 8200 in
  let timeout_ms := ToolBase.getParamOr get_int arguments "timeout_ms" 500 in
  let scan :=
    InstanceDiscovery.discoverInstances env port_start port_end timeout_ms in
  let valid :=
    1024 <= port_start <= port_end /\ port_end <= 65535
    /\ 100 <= timeout_ms <= 5000 in
  (~ valid ->
   exists reply,
     ListInstancesTool.execute env arguments = Returns reply
     /\ find reply "success" = Some (JBool false)
     /\ contains reply "error" = true
     /\ find reply "data" = None)
  /\ (valid ->
      forall found,
        scan = Returns (Ok found) ->
        exists reply,
          ListInstancesTool.execute env arguments = Returns reply
          /\ find reply "success" = Some (JBool true)
          /\ (find reply "data" ≫= fun d => find d "instances")
             = Some (JArray (ListInstancesTool.instance_json <$> found))
          /\ (find reply "data" ≫= fun d => find d "count")
             = Some (JInt (Z.of_nat (length found))))
  /\ (valid ->
      forall e,
        scan = Returns (Throw e) ->
        exists reply,
          ListInstancesTool.execute env arguments = Returns reply
          /\ find reply "success" = Some (JBool false)
          /\ find reply "error"
             = Some (JString ("Failed to discover Flutter instances: " +:+ what e
                              +:+ ListInstancesTool.troubleshooting))
          /\ find reply "data" = None)
  /\ (valid -> scan = Lost -> ListInstancesTool.execute env arguments = Lost).
Proof.
  cbv zeta. unfold ListInstancesTool.execute.
  set (port_start := ToolBase.getParamOr get_int arguments "port_start" 8080).
  set (port_end := ToolBase.getParamOr get_int arguments "port_end" 8200).
  set (timeout_ms := ToolBase.getParamOr get_int arguments "timeout_ms" 500).
  pose proof (discoverInstances_length env port_start port_end timeout_ms) as Hbound.
  set (scan := InstanceDiscovery.discoverInstances env port_start port_end timeout_ms)
    in *.
  assert (Herr : forall error,
    exists reply,
      Returns (ToolBase.createErrorResponse error JNull) = Returns reply
      /\ find reply "success" = Some (JBool false)
      /\ contains reply "error" = true
      /\ find reply "data" = None).
  { intros error. eexists. split; [reflexivity|].
    destruct (createErrorResponse_members error) as (H1 & H2 & H3).
    unfold contains. by rewrite H2. }
  repeat (case_bool_decide; cbn [orb]);
    try (split; [intros _; apply Herr|split_and!; intros ?; lia]).
  split; [intros Hv; lia|]. split_and!; intros _.
  - intros found Hscan. rewrite Hscan. cbn [mbind fate_bind].
    specialize (Hbound found Hscan).
    case_bool_decide as Hnone.
    + eexists. split; [reflexivity|].
      match goal with
      | |- context [ToolBase.createSuccessResponse ?d ?m] =>
          destruct (createSuccessResponse_members d m) as [-> ->]
      end.
      cbn. lookups. by rewrite Hnone.
    + eexists. split; [reflexivity|].
      match goal with
      | |- context [ToolBase.createSuccessResponse ?d ?m] =>
          destruct (createSuccessResponse_members d m) as [-> ->]
      end.
      cbn. lookups. split_and!; try done.
      rewrite to_int32_id; [done|lia].
  - intros e Hscan. rewrite Hscan. cbn [mbind fate_bind].
    eexists. split; [reflexivity|].
    destruct (createErrorResponse_members
                ("Failed to discover Flutter instances: " +:+ what e
                 +:+ ListInstancesTool.troubleshooting)) as (Hs & He & Hd).
    by rewrite Hs, He, Hd.
  - by intros ->.
Qed.

End ListInstances.

(** ** The transport on standard input and output *)

Section Stdio.

Import StdioTransport.
Implicit Types (tp : StdioTransport.t) (line : string).

Lemma strip_eol_idemp line : strip_eol (strip_eol line) = strip_eol line.
Proof.
  induction line as [|a rest IH]; [done|].
  cbn. destruct (strip_eol rest) as [|b kept] eqn:E.
  - destruct (is_eol a) eqn:Ha; [done|]. cbn. by rewrite Ha.
  - cbn [strip_eol] in *. by rewrite IH.
Qed.

(** X26.  [receive] returns the next line of standard input without the
    carriage returns and line feeds at its end, and consumes it.  It
    returns the empty string exactly when it leaves the transport not
    ready, which happens at the end of input and also on a line that has
    nothing but line ends; standard output is not touched. *)
Theorem receive_result tp :
  ((receive tp).1 = "" <-> ready_ (receive tp).2 = false)
  /\ strip_eol (receive tp).1 = (receive tp).1
  /\ stdout_ (receive tp).2 = stdout_ tp
  /\ (ready_ tp = true ->
      (receive tp).1 = strip_eol (hd "" (stdin_ tp))
      /\ stdin_ (receive tp).2 = tail (stdin_ tp))
  /\ (ready_ tp = false -> receive tp = ("", tp)).
Proof.
  unfold receive. destruct (ready_ tp) eqn:Hr; cbn [negb].
  - destruct (stdin_ tp) as [|line rest]; cbn -[strip_eol]; [by split_and!|].
    case_bool_decide as He; cbn -[strip_eol].
    + rewrite He. by split_and!.
    + split_and!; try done. apply strip_eol_idemp.
  - cbn. by split_and!.
Qed.

Lemma receiveLoop_turns_S {S : Type} (callback : option (string -> t * S -> t * S))
    (turns : nat) tp (s : S) :
  receiveLoop_turns callback (Datatypes.S turns) tp s
  = match receiveLoop_turn callback tp s with
    | (tp, s, true) => receiveLoop_turns callback turns tp s
    | (tp, s, false) => (tp, s)
    end.
Proof. reflexivity. Qed.

(** A callback that reaches the transport only to write: on a ready
    transport it does to standard output and to its own state what [act]
    says, and leaves the rest of the transport alone. *)
Lemma receiveLoop_turn_line {S : Type} (callback : string -> t * S -> t * S)
    (act : string -> list string * S -> list string * S)
    line (rest out : list string) (s : S) :
  (forall message tp s, ready_ tp = true ->
     callback message (tp, s)
     = (mk (ready_ tp) (async_running_ tp) (stdin_ tp) (act message (stdout_ tp, s)).1,
        (act message (stdout_ tp, s)).2)) ->
  strip_eol line <> "" ->
  receiveLoop_turn (Some callback) (mk true true (line :: rest) out) s
  = (mk true true rest (act (strip_eol line) (out, s)).1,
     (act (strip_eol line) (out, s)).2, true).
Proof.
  intros Hcb Hline. unfold receiveLoop_turn, receive. cbn -[strip_eol].
  rewrite !bool_decide_eq_false_2 by done. cbn -[strip_eol].
  rewrite ?bool_decide_eq_false_2 by done. cbn -[strip_eol].
  by rewrite Hcb.
Qed.

Lemma receiveLoop_turn_blank {S : Type} (callback : option (string -> t * S -> t * S))
    (rest out : list string) (s : S) :
  (rest = [] \/ exists blank tl, rest = blank :: tl /\ strip_eol blank = "") ->
  receiveLoop_turn callback (mk true true rest out) s
  = (mk false true (tail rest) out, s, false).
Proof.
  intros [-> | (blank & tl & -> & Hb)]; unfold receiveLoop_turn, receive;
    cbn -[strip_eol]; rewrite ?Hb; cbn; by destruct callback.
Qed.

Lemma receiveLoop_turns_lines {S : Type} (callback : string -> t * S -> t * S)
    (act : string -> list string * S -> list string * S) (pre : list string) :
  (forall message tp s, ready_ tp = true ->
     callback message (tp, s)
     = (mk (ready_ tp) (async_running_ tp) (stdin_ tp) (act message (stdout_ tp, s)).1,
        (act message (stdout_ tp, s)).2)) ->
  Forall (fun line => strip_eol line <> "") pre ->
  forall (turns : nat) (rest out : list string) (s : S),
    (length pre < turns)%nat ->
    (rest = [] \/ exists blank tl, rest = blank :: tl /\ strip_eol blank = "") ->
    receiveLoop_turns (Some callback) turns (mk true true (pre ++ rest) out) s
    = (mk false true (tail rest)
         (foldl (fun st line => act (strip_eol line) st) (out, s) pre).1,
       (foldl (fun st line => act (strip_eol line) st) (out, s) pre).2).
Proof.
  intros Hcb.
  induction 1 as [|line pre Hline Hpre IH]; intros turns rest out s Hturns Hrest;
    (destruct turns as [|turns]; [cbn in Hturns; lia|]);
    rewrite receiveLoop_turns_S.
  - cbn [app]. by rewrite receiveLoop_turn_blank.
  - rewrite <- app_comm_cons, (receiveLoop_turn_line callback act) by done.
    rewrite IH; [|cbn in Hturns; lia|done].
    cbn [foldl]. by destruct (act (strip_eol line) (out, s)).
Qed.

(** X27.  Take a callback that reaches the transport only to write, as
    the server's does: on a ready transport it does to standard output and
    to its own state what [act] says.  Started on a ready transport, the
    receive loop hands it the lines of standard input one after the other,
    without their line ends, up to the first line that is blank or the end
    of input; it consumes that blank line, hands over nothing after it and
    leaves the transport not ready. *)
Theorem receiveLoop_stops_at_blank_line {S : Type}
    (callback : string -> t * S -> t * S)
    (act : string -> list string * S -> list string * S)
    (pre rest out : list string) (s : S)
    (Hcb : forall message tp s, ready_ tp = true ->
       callback message (tp, s)
       = (mk (ready_ tp) (async_running_ tp) (stdin_ tp) (act message (stdout_ tp, s)).1,
          (act message (stdout_ tp, s)).2))
    (Hpre : Forall (fun line => strip_eol line <> "") pre)
    (Hrest : rest = [] \/ exists blank tl, rest = blank :: tl /\ strip_eol blank = "") :
  receiveLoop (Some callback) (mk true true (pre ++ rest) out) s
  = (mk false true (tail rest)
       (foldl (fun st line => act (strip_eol line) st) (out, s) pre).1,
     (foldl (fun st line => act (strip_eol line) st) (out, s) pre).2).
Proof.
  unfold receiveLoop. apply receiveLoop_turns_lines; try done.
  cbn. rewrite length_app. lia.
Qed.

Lemma receiveLoop_stops_at_blank_line_witness :
  receiveLoop
    (Some (fun message (st : t * list string) => (send message st.1, message :: st.2)))
    (mk true true
       (["ping" +:+ String (Ascii.ascii_of_nat 13) ""; "pong"]
        ++ [String (Ascii.ascii_of_nat 13) ""; "late"]) [])
    []
  = (mk false true ["late"] ["ping"; "pong"], ["pong"; "ping"]).
Proof.
  rewrite (receiveLoop_stops_at_blank_line
             (fun message (st : t * list string) => (send message st.1, message :: st.2))
             (fun message st => (st.1 ++ [message], message :: st.2))).
  - reflexivity.
  - intros message tp s Hready. unfold send. cbn. by rewrite Hready.
  - repeat constructor; vm_compute; discriminate.
  - right. eexists _, _. split; [reflexivity|]. vm_compute. reflexivity.
Defined.

End Stdio.
